(** * The detection wrapper of the AI-detector demo page

    A shallow embedding of [safeDetectAI] from [src/app/page.tsx]: the
    function the page calls to classify a text, a guard on the trimmed
    length followed by a guarded call of the imported [detectAIText]. *)

From Stdlib Require Import List String Ascii NArith Arith Bool Lia.
From Stdlib Require Import Floats.PrimFloat.
Import ListNotations.

Set Implicit Arguments.

(** ** JavaScript strings *)

Module JsString.

(** A JavaScript string is a sequence of UTF-16 code units; [length] of
    the list is the [.length] of the string. *)
Definition code_unit := N.
Definition t := list code_unit.

(** A string literal of the source, all of them ASCII. *)
Definition lit (s : string) : t :=
  map N_of_ascii (list_ascii_of_string s).

(** The code units [String.prototype.trim] strips: ECMAScript's
    WhiteSpace and LineTerminator, every one in the basic plane. *)
Definition is_trim_space (u : code_unit) : bool :=
  ((9 <=? u) && (u <=? 13)
   || (u =? 32) || (u =? 160) || (u =? 5760)
   || (8192 <=? u) && (u <=? 8202)
   || (u =? 8232) || (u =? 8233) || (u =? 8239) || (u =? 8287)
   || (u =? 12288) || (u =? 65279))%N.

Fixpoint trim_start (s : t) : t :=
  match s with
  | u :: s' => if is_trim_space u then trim_start s' else s
  | [] => []
  end.

Definition trim_end (s : t) : t := rev (trim_start (rev s)).

Definition trim (s : t) : t := trim_end (trim_start s).

Definition is_high_surrogate (u : code_unit) : bool :=
  ((55296 <=? u) && (u <=? 56319))%N.

Definition is_low_surrogate (u : code_unit) : bool :=
  ((56320 <=? u) && (u <=? 57343))%N.

(** The length of a string in Unicode code points, as string iteration
    counts them: a high surrogate directly followed by a low one is one
    code point, any other code unit is one by itself. The source never
    computes this measure; it is the one the specification names. *)
Fixpoint code_point_length (s : t) : nat :=
  match s with
  | [] => 0
  | u :: s' =>
      S (match s' with
         | v :: s'' =>
             if is_high_surrogate u && is_low_surrogate v
             then code_point_length s''
             else code_point_length s'
         | [] => 0
         end)
  end.

(** Every code unit fits 16 bits. *)
Definition well_formed (s : t) : Prop := Forall (fun u => (u < 65536)%N) s.

End JsString.

(** ** JavaScript computations *)

(** The values a property can hold, as far as the page tells them
    apart. *)
Inductive js_value : Type :=
| JsUndefined
| JsNull
| JsBoolean (b : bool)
| JsNumber (x : float)
| JsString (s : JsString.t)
| JsPlainObject.

(** What a [throw] can carry, by what the handler of [safeDetectAI]
    does with it: it evaluates [error instanceof Error] and, when that
    holds, reads [error.message]. A value that is not an instance
    answers the test with false. An instance holds a message of any
    kind, a string by convention only, or has a getter for it that
    throws. On a revoked proxy, or one whose [getPrototypeOf] trap
    throws, the test itself throws. *)
Inductive thrown : Type :=
| NotAnError (v : js_value)
| ErrorInstance (message : js_value)
| ErrorWithThrowingMessage (raised : thrown)
| Uninspectable (raised : thrown).

Inductive outcome (A : Type) : Type :=
| Returned (a : A)
| Threw (e : thrown).

Arguments Threw {A} e.

(** A computation runs in a world [W] (whatever the imported package
    keeps between calls) and either returns or throws; what it did to
    the world before throwing stays done. *)
Definition JS (W A : Type) : Type := W -> outcome A * W.

Definition ret {W A : Type} (a : A) : JS W A := fun w => (Returned a, w).

Definition bind {W A B : Type} (m : JS W A) (k : A -> JS W B) : JS W B :=
  fun w =>
    match m w with
    | (Returned a, w') => k a w'
    | (Threw e, w') => (Threw e, w')
    end.

Definition throw {W A : Type} (e : thrown) : JS W A := fun w => (Threw e, w).

Definition try_catch {W A : Type} (body : JS W A) (handler : thrown -> JS W A)
  : JS W A :=
  fun w =>
    match body w with
    | (Returned a, w') => (Returned a, w')
    | (Threw e, w') => handler e w'
    end.

Declare Scope js_scope.
Delimit Scope js_scope with js.
Notation "x <- m ;; k" := (bind m (fun x => k))
  (at level 61, m at next level, right associativity) : js_scope.

(** ** Records *)

(** The record [detectAIText] returns. Its declaration belongs to the
    imported package; the fields are those of the page's interface,
    with the ones a detector need not supply left optional. *)
Module Detector.
Record result : Type := {
  isAIGenerated : bool;
  confidence : float;
  reasons : list JsString.t;
  score : float;
  error : option js_value;
  perplexityScore : option float;
  burstinessScore : option float
}.
End Detector.

(** [interface AnalysisResult] of the page. The interface declares
    [error] an optional string; the handler of [safeDetectAI] stores
    there whatever the message of the caught value is, so the field
    holds a value of any kind. *)
Record AnalysisResult : Type := {
  isAIGenerated : bool;
  confidence : float;
  reasons : list JsString.t;
  score : float;
  error : option js_value;
  perplexityScore : float;
  burstinessScore : float
}.

(** ** The wrapper *)

Section Wrapper.

Variable World : Type.
Variable detectAIText : JsString.t -> JS World Detector.result.

Local Open Scope js_scope.

(** [error instanceof Error ? error.message : "Unknown error"], the
    one expression of the handler that can throw. *)
Definition message_or_unknown (error : thrown) : JS World js_value :=
  match error with
  | NotAnError _ => ret (JsString (JsString.lit "Unknown error"))
  | ErrorInstance message => ret message
  | ErrorWithThrowingMessage raised => throw raised
  | Uninspectable raised => throw raised
  end.

Definition safeDetectAI (text : JsString.t) : JS World AnalysisResult :=
  if List.length (JsString.trim text) <? 50 then
    ret {| isAIGenerated := false;
           confidence := 0;
           reasons := [JsString.lit "Text too short for reliable analysis"];
           score := 0;
           error := Some (JsString
                            (JsString.lit "Minimum 50 characters required"));
           perplexityScore := 0;
           burstinessScore := 0 |}
  else
    try_catch
      (result <- detectAIText text ;;
       ret {| isAIGenerated := Detector.isAIGenerated result;
              confidence := Detector.confidence result;
              reasons := Detector.reasons result;
              score := Detector.score result;
              error := Detector.error result;
              perplexityScore := Detector.score result * 10;
              burstinessScore := (1 - Detector.confidence result) * 10 |})
      (fun error =>
         message <- message_or_unknown error ;;
         ret {| isAIGenerated := false;
                confidence := 0;
                reasons := [JsString.lit "Error analyzing text"];
                score := 0;
                error := Some message;
                perplexityScore := 0;
                burstinessScore := 0 |}).

End Wrapper.

Arguments message_or_unknown {World} error _.
Arguments safeDetectAI {World} detectAIText text _.

(** The thrown values the handler can look at without throwing
    itself. *)
Definition inspectable (e : thrown) : bool :=
  match e with
  | NotAnError _ | ErrorInstance _ => true
  | ErrorWithThrowingMessage _ | Uninspectable _ => false
  end.

(** ** Sample detectors and texts *)

Definition detector_returning {W : Type} (d : Detector.result)
  : JsString.t -> JS W Detector.result := fun _ => ret d.

Definition detector_throwing {W : Type} (e : thrown)
  : JsString.t -> JS W Detector.result := fun _ => throw e.

(** A detector that counts its calls in the world. *)
Definition detector_counting (d : Detector.result)
  : JsString.t -> JS nat Detector.result := fun _ n => (Returned d, S n).

Definition ai_verdict : Detector.result :=
  {| Detector.isAIGenerated := true;
     Detector.confidence := 0.75;
     Detector.reasons := [JsString.lit "Sentence length is unusually uniform"];
     Detector.score := 0.875;
     Detector.error := None;
     Detector.perplexityScore := Some 3%float;
     Detector.burstinessScore := Some 4%float |}.

(** The same verdict without display scores of the detector's own. *)
Definition bare_verdict : Detector.result :=
  {| Detector.isAIGenerated := true;
     Detector.confidence := 0.75;
     Detector.reasons := [JsString.lit "Sentence length is unusually uniform"];
     Detector.score := 0.875;
     Detector.error := None;
     Detector.perplexityScore := None;
     Detector.burstinessScore := None |}.

(** [d] with display scores [p] and [b] of the detector's own. *)
Definition supplying (d : Detector.result) (p b : option float)
  : Detector.result :=
  {| Detector.isAIGenerated := Detector.isAIGenerated d;
     Detector.confidence := Detector.confidence d;
     Detector.reasons := Detector.reasons d;
     Detector.score := Detector.score d;
     Detector.error := Detector.error d;
     Detector.perplexityScore := p;
     Detector.burstinessScore := b |}.

Definition ten_characters : JsString.t := JsString.lit "Too short.".

(** Two letters between blanks and line breaks: 64 code units, 2 once
    trimmed. *)
Definition padded_text : JsString.t :=
  (repeat 32%N 30 ++ JsString.lit "hi" ++ repeat 10%N 32)%list.

Definition long_text : JsString.t :=
  JsString.lit
    "The advancement of artificial intelligence represents a paradigm shift.".

(** Twenty-five times U+1F600, each a surrogate pair: 25 code points,
    50 code units. *)
Definition emoji_text : JsString.t :=
  List.concat (repeat [55357%N; 56832%N] 25).

(** A detector with a memory: it returns on even calls and throws on
    odd ones. *)
Definition detector_alternating (d : Detector.result)
  : JsString.t -> JS nat Detector.result :=
  fun _ n =>
    (if Nat.even n then Returned d else Threw (NotAnError JsUndefined), S n).

(** ** The page component *)

(** [!s] for a string [s]: the empty string is the only falsy one. *)
Definition falsy (s : JsString.t) : bool :=
  match s with
  | [] => true
  | _ :: _ => false
  end.

Fixpoint string_eqb (s t : JsString.t) : bool :=
  match s, t with
  | [], [] => true
  | u :: s', v :: t' => (u =? v)%N && string_eqb s' t'
  | _, _ => false
  end.

Fixpoint starts_with (prefix s : JsString.t) : bool :=
  match prefix, s with
  | [], _ => true
  | u :: prefix', v :: s' => (u =? v)%N && starts_with prefix' s'
  | _ :: _, [] => false
  end.

(** Nothing but the code units [trim] strips. *)
Definition blank (s : JsString.t) : Prop :=
  Forall (fun u => JsString.is_trim_space u = true) s.

(** An object used as a map from strings to booleans, as [copiedStates]
    is, with its keys in insertion order. *)
Module JsObject.

Definition t := list (JsString.t * bool).

Fixpoint get (key : JsString.t) (o : t) : option bool :=
  match o with
  | [] => None
  | (k, v) :: o' => if string_eqb key k then Some v else get key o'
  end.

(** [{ ...o, [key]: value }]: an own key keeps its place, a new one
    goes last. *)
Fixpoint set (key : JsString.t) (value : bool) (o : t) : t :=
  match o with
  | [] => [(key, value)]
  | (k, v) :: o' =>
      if string_eqb key k then (k, value) :: o'
      else (k, v) :: set key value o'
  end.

(** [o[key]] in a condition: a missing key reads [undefined]. *)
Definition truthy (key : JsString.t) (o : t) : bool :=
  match get key o with
  | Some true => true
  | _ => false
  end.

Definition keys (o : t) : list JsString.t := map fst o.

End JsObject.

Module Home.

Inductive ExampleKey : Type :=
| chatgpt | claude | gemini | gpt4 | human | humanCasual.

Definition predefinedExamples (key : ExampleKey) : JsString.t :=
  match key with
  | chatgpt =>
      (JsString.lit "In a quiet village where no one had ever seen the stars, a "
       ++ JsString.lit "curious child named Luma built a tower tall enough to touch "
       ++ JsString.lit "the sky. Each night, she climbed it with a lantern in hand, "
       ++ JsString.lit "hoping the stars would notice her light. One evening, a single "
       ++ JsString.lit "star blinked back"
       ++ [8218%N; 196%N; 238%N]
       ++ JsString.lit "and then began to fall. It landed gently in her palm, whispering "
       ++ JsString.lit "secrets of distant galaxies only she could understand. From "
       ++ JsString.lit "that night on, the stars visited the village in dreams, painting "
       ++ JsString.lit "the skies with colors unknown. Luma never spoke of her tower "
       ++ JsString.lit "again, but the stars always lingered just a little closer.")%list
  | claude =>
      (JsString.lit "In today's rapidly evolving technological landscape, it's "
       ++ JsString.lit "worth noting that machine learning algorithms continue to "
       ++ JsString.lit "revolutionize how we approach data analysis. These cutting-edge "
       ++ JsString.lit "systems enable organizations to harness the power of big data, "
       ++ JsString.lit "transforming raw information into valuable insights that can "
       ++ JsString.lit "enhance operational efficiency and drive innovation across "
       ++ JsString.lit "diverse sectors.")%list
  | gemini =>
      (JsString.lit "The advancement of artificial intelligence represents a paradigm "
       ++ JsString.lit "shift in computational capabilities. Through sophisticated "
       ++ JsString.lit "algorithms and neural networks, these systems demonstrate "
       ++ JsString.lit "remarkable proficiency in pattern recognition, natural language "
       ++ JsString.lit "processing, and predictive analytics. This technological evolution "
       ++ JsString.lit "enables unprecedented automation and optimization across various "
       ++ JsString.lit "domains.")%list
  | gpt4 =>
      (JsString.lit "As we delve into the realm of artificial intelligence, it "
       ++ JsString.lit "becomes evident that these sophisticated systems have fundamentally "
       ++ JsString.lit "transformed numerous aspects of modern business operations. "
       ++ JsString.lit "The comprehensive integration of AI technologies facilitates "
       ++ JsString.lit "enhanced decision-making processes, streamlines operational "
       ++ JsString.lit "workflows, and enables organizations to maintain competitive "
       ++ JsString.lit "advantages in an increasingly dynamic marketplace.")%list
  | human =>
      (JsString.lit "Mr. and Mrs. Dursley, of number four, Privet Drive, were proud "
       ++ JsString.lit "to say that they were perfectly normal, thank you very much. "
       ++ JsString.lit "They were the last people you"
       ++ [8218%N; 196%N; 244%N]
       ++ JsString.lit "d expect to be involved in anything strange or mysterious, "
       ++ JsString.lit "because they just didn"
       ++ [8218%N; 196%N; 244%N]
       ++ JsString.lit "t hold with such nonsense.")%list
  | humanCasual =>
      (JsString.lit "Oh my goodness, I just discovered this amazing coffee shop "
       ++ JsString.lit "downtown! The barista was SO nice, and they had this incredible "
       ++ JsString.lit "lavender latte that I'm obsessed with. I've been there three "
       ++ JsString.lit "times this week already (don't judge me "
       ++ [63743%N; 252%N; 242%N; 214%N]
       ++ JsString.lit "). The vibe is super chilly, perfect for working or just hanging "
       ++ JsString.lit "out with friends. Anyone wanna check it out with me this weekend??")%list
  end.

(** The state hooks of [Home]. *)
Record state : Type := {
  text : JsString.t;
  result : option AnalysisResult;
  isAnalyzing : bool;
  selectedExample : option ExampleKey;
  darkMode : bool;
  copiedStates : JsObject.t
}.

(** The arguments of the six [useState] calls. *)
Definition initial : state :=
  {| text := [];
     result := None;
     isAnalyzing := false;
     selectedExample := None;
     darkMode := true;
     copiedStates := [] |}.

Definition setText (v : JsString.t) (s : state) : state :=
  {| text := v; result := result s; isAnalyzing := isAnalyzing s;
     selectedExample := selectedExample s; darkMode := darkMode s;
     copiedStates := copiedStates s |}.

Definition setResult (v : option AnalysisResult) (s : state) : state :=
  {| text := text s; result := v; isAnalyzing := isAnalyzing s;
     selectedExample := selectedExample s; darkMode := darkMode s;
     copiedStates := copiedStates s |}.

Definition setIsAnalyzing (v : bool) (s : state) : state :=
  {| text := text s; result := result s; isAnalyzing := v;
     selectedExample := selectedExample s; darkMode := darkMode s;
     copiedStates := copiedStates s |}.

Definition setSelectedExample (v : option ExampleKey) (s : state) : state :=
  {| text := text s; result := result s; isAnalyzing := isAnalyzing s;
     selectedExample := v; darkMode := darkMode s;
     copiedStates := copiedStates s |}.

Definition setDarkMode (v : bool) (s : state) : state :=
  {| text := text s; result := result s; isAnalyzing := isAnalyzing s;
     selectedExample := selectedExample s; darkMode := v;
     copiedStates := copiedStates s |}.

(** [setCopiedStates] takes an updater of the previous value. *)
Definition setCopiedStates (f : JsObject.t -> JsObject.t) (s : state) : state :=
  {| text := text s; result := result s; isAnalyzing := isAnalyzing s;
     selectedExample := selectedExample s; darkMode := darkMode s;
     copiedStates := f (copiedStates s) |}.

Definition loadExample (exampleKey : ExampleKey) (s : state) : state :=
  setResult None
    (setSelectedExample (Some exampleKey)
       (setText (predefinedExamples exampleKey) s)).

Definition clearAll (s : state) : state :=
  setSelectedExample None (setResult None (setText [] s)).

Definition getResultColor (s : state) (isAI : bool) : JsString.t :=
  if isAI then
    if darkMode s then JsString.lit "text-red-400"
    else JsString.lit "text-red-600"
  else
    if darkMode s then JsString.lit "text-emerald-400"
    else JsString.lit "text-emerald-600".

Definition getResultBgColor (s : state) (isAI : bool) : JsString.t :=
  if isAI then
    if darkMode s then JsString.lit "bg-red-500/10 border-red-500/30"
    else JsString.lit "bg-red-50 border-red-200"
  else
    if darkMode s then JsString.lit "bg-emerald-500/10 border-emerald-500/30"
    else JsString.lit "bg-emerald-50 border-emerald-200".

(** The [disabled] attributes of the three guarded buttons. *)
Definition analyzeDisabled (s : state) : bool :=
  falsy (JsString.trim (text s))
  || (List.length (text s) <? 50)
  || isAnalyzing s.

Definition copyTextDisabled (s : state) : bool := falsy (text s).

Definition clearDisabled (s : state) : bool :=
  falsy (text s) && match result s with None => true | Some _ => false end.

(** What the page has left to run later, each with the values its
    closure holds. *)
Inductive task : Type :=
| AnalysisTimer (text : JsString.t)
| ClipboardWrite (text buttonId : JsString.t)
| CopiedTimer (buttonId : JsString.t).

(** The page in its browser: the hooks, the callbacks still to run, the
    world of the detector, the clipboard and what was logged to the
    console. *)
Record page (World : Type) : Type := {
  view : state;
  pending : list task;
  world : World;
  clipboard : option JsString.t;
  console : list thrown
}.

Arguments view {World} _.
Arguments pending {World} _.
Arguments world {World} _.
Arguments clipboard {World} _.
Arguments console {World} _.

Definition start {World : Type} (w : World) : page World :=
  {| view := initial; pending := []; world := w;
     clipboard := None; console := [] |}.

Definition with_view {World : Type} (f : state -> state) (p : page World)
  : page World :=
  {| view := f (view p); pending := pending p; world := world p;
     clipboard := clipboard p; console := console p |}.

Definition schedule {World : Type} (t : task) (p : page World) : page World :=
  {| view := view p; pending := (pending p ++ [t])%list; world := world p;
     clipboard := clipboard p; console := console p |}.

Fixpoint remove_nth {A : Type} (n : nat) (l : list A) : list A :=
  match n, l with
  | _, [] => []
  | 0, _ :: l' => l'
  | S n', x :: l' => x :: remove_nth n' l'
  end.

Definition unschedule {World : Type} (n : nat) (p : page World) : page World :=
  {| view := view p; pending := remove_nth n (pending p); world := world p;
     clipboard := clipboard p; console := console p |}.

(** The texts of the analyses still to finish. *)
Fixpoint analysis_timers (l : list task) : list JsString.t :=
  match l with
  | [] => []
  | AnalysisTimer text :: l' => text :: analysis_timers l'
  | _ :: l' => analysis_timers l'
  end.

(** The button a copy callback belongs to. *)
Definition task_buttonId (t : task) : option JsString.t :=
  match t with
  | AnalysisTimer _ => None
  | ClipboardWrite _ buttonId => Some buttonId
  | CopiedTimer buttonId => Some buttonId
  end.

(** The ids the three copy buttons pass. *)
Definition buttonIds : list JsString.t :=
  [JsString.lit "textarea"; JsString.lit "npm-install";
   JsString.lit "code-usage"].

Section Handlers.

Variable World : Type.
Variable detectAIText : JsString.t -> JS World Detector.result.

(** [analyzeText] up to its [await]: the timer is set with the text of
    this render in its closure. *)
Definition analyzeText (p : page World) : page World :=
  if falsy (JsString.trim (text (view p))) then p
  else schedule (AnalysisTimer (text (view p)))
         (with_view (setIsAnalyzing true) p).

(** [analyzeText] after its [await], on the text it was started with:
    the [try] body, the [catch] and the [finally]. *)
Definition analyzeText_resumed (text : JsString.t) (p : page World)
  : page World :=
  match safeDetectAI detectAIText text (world p) with
  | (Returned analysisResult, w) =>
      {| view := setIsAnalyzing false
                   (setResult (Some analysisResult) (view p));
         pending := pending p; world := w;
         clipboard := clipboard p; console := console p |}
  | (Threw error, w) =>
      {| view := setIsAnalyzing false (view p);
         pending := pending p; world := w;
         clipboard := clipboard p; console := (console p ++ [error])%list |}
  end.

(** [copyToClipboard]: the call starts the write; [buttonId] defaults
    to "default". *)
Definition copyToClipboard (text : JsString.t) (buttonId : option JsString.t)
    (p : page World) : page World :=
  schedule
    (ClipboardWrite text
       match buttonId with
       | Some id => id
       | None => JsString.lit "default"
       end)
    p.

(** The [then] callback of the write. *)
Definition copyToClipboard_written (text buttonId : JsString.t)
    (p : page World) : page World :=
  schedule (CopiedTimer buttonId)
    {| view := setCopiedStates (JsObject.set buttonId true) (view p);
       pending := pending p; world := world p;
       clipboard := Some text; console := console p |}.

(** The callback of the two-second timer. *)
Definition copyToClipboard_expired (buttonId : JsString.t) (p : page World)
  : page World :=
  with_view (setCopiedStates (JsObject.set buttonId false)) p.

Definition run (t : task) (p : page World) : page World :=
  match t with
  | AnalysisTimer text => analyzeText_resumed text p
  | ClipboardWrite text buttonId => copyToClipboard_written text buttonId p
  | CopiedTimer buttonId => copyToClipboard_expired buttonId p
  end.

(** What can happen to the page: the user's input as the elements are
    wired, a pending callback running, a clipboard write failing. *)
Inductive event : Type :=
| Change (value : JsString.t)
| ClickExample (key : ExampleKey)
| ClickClear
| ClickTheme
| ClickAnalyze
| ClickCopyText
| ClickCopyInstall
| ClickCopyUsage
| Settle (n : nat)
| Reject (n : nat).

(** One event; [None] when the page does not offer it (a disabled
    button, no such callback pending). *)
Definition step (e : event) (p : page World) : option (page World) :=
  match e with
  | Change value => Some (with_view (setText value) p)
  | ClickExample key => Some (with_view (loadExample key) p)
  | ClickClear =>
      if clearDisabled (view p) then None else Some (with_view clearAll p)
  | ClickTheme =>
      Some (with_view (setDarkMode (negb (darkMode (view p)))) p)
  | ClickAnalyze =>
      if analyzeDisabled (view p) then None else Some (analyzeText p)
  | ClickCopyText =>
      if copyTextDisabled (view p) then None
      else Some (copyToClipboard (text (view p))
                   (Some (JsString.lit "textarea")) p)
  | ClickCopyInstall =>
      Some (copyToClipboard (JsString.lit "npm install ai-text-detector")
              (Some (JsString.lit "npm-install")) p)
  | ClickCopyUsage =>
      Some (copyToClipboard
              (JsString.lit "import { detectAIText } from 'ai-text-detector';"
               ++ [10%N]
               ++ JsString.lit "const result = detectAIText(text);")%list
              (Some (JsString.lit "code-usage")) p)
  | Settle n =>
      match nth_error (pending p) n with
      | Some t => Some (run t (unschedule n p))
      | None => None
      end
  | Reject n =>
      match nth_error (pending p) n with
      | Some (ClipboardWrite _ _) => Some (unschedule n p)
      | _ => None
      end
  end.

Fixpoint steps (es : list event) (p : page World) : option (page World) :=
  match es with
  | [] => Some p
  | e :: es' =>
      match step e p with
      | Some p' => steps es' p'
      | None => None
      end
  end.

(** The pages a run of events from the first render can lead to. *)
Inductive reachable : page World -> Prop :=
| reachable_start (w : World) : reachable (start w)
| reachable_step (e : event) (p p' : page World) :
    reachable p -> step e p = Some p' -> reachable p'.

End Handlers.

End Home.

(** What holds of the copy marks and the callbacks behind them: a mark
    that is set has a timer pending to take it back, the keys are those
    of the three buttons, each once, and so are the ids the callbacks
    hold. *)
Definition copies_consistent (o : JsObject.t) (l : list Home.task) : Prop :=
  (forall id, JsObject.truthy id o = true -> In (Home.CopiedTimer id) l) /\
  NoDup (JsObject.keys o) /\
  (forall id, In id (JsObject.keys o) -> In id Home.buttonIds) /\
  (forall t id, In t l -> Home.task_buttonId t = Some id ->
                In id Home.buttonIds).

(** Callbacks a pending list stands for: a write that succeeds brings a
    timer after it. *)
Fixpoint callbacks_to_come (l : list Home.task) : nat :=
  match l with
  | [] => 0
  | Home.ClipboardWrite _ _ :: l' => 2 + callbacks_to_come l'
  | _ :: l' => 1 + callbacks_to_come l'
  end.

(** Sample pages, with a detector that counts its calls: [long_text]
    typed in, the analysis started, the analysis finished. *)
Definition typed_page : Home.page nat :=
  Home.with_view (Home.setText long_text) (Home.start 0).

Definition analyzing_page : Home.page nat := Home.analyzeText typed_page.

Definition analyzed_page : Home.page nat :=
  Home.analyzeText_resumed (detector_counting ai_verdict) long_text
    (Home.unschedule 0 analyzing_page).

(** The install command copied: the write done, its timer pending. *)
Definition copied_page : Home.page nat :=
  Home.copyToClipboard_written (JsString.lit "npm install ai-text-detector")
    (JsString.lit "npm-install") (Home.start 0).

(** [padded_text] typed in. *)
Definition padded_page : Home.page nat :=
  Home.with_view (Home.setText padded_text) (Home.start 0).

(** ** Strings: facts about [trim] and the two lengths *)

Example trim_keeps_inner_blanks :
  JsString.trim (JsString.lit "  a b  ") = JsString.lit "a b".
Proof. reflexivity. Qed.

Example padded_text_lengths :
  List.length padded_text = 64 /\ List.length (JsString.trim padded_text) = 2.
Proof. split; reflexivity. Qed.

Example long_text_length : List.length (JsString.trim long_text) = 71.
Proof. reflexivity. Qed.

Example emoji_text_lengths :
  List.length emoji_text = 50 /\ JsString.code_point_length emoji_text = 25.
Proof. split; reflexivity. Qed.

Lemma trim_start_length (s : JsString.t) :
  List.length (JsString.trim_start s) <= List.length s.
Proof.
  induction s as [|u s IH]; simpl; [lia|].
  destruct (JsString.is_trim_space u); simpl; lia.
Qed.

Lemma trim_length (s : JsString.t) :
  List.length (JsString.trim s) <= List.length s.
Proof.
  unfold JsString.trim, JsString.trim_end.
  rewrite length_rev.
  etransitivity; [apply trim_start_length|].
  rewrite length_rev. apply trim_start_length.
Qed.

Lemma code_units_of_code_points_aux (n : nat) :
  forall s : JsString.t, List.length s <= n ->
    List.length s <= 2 * JsString.code_point_length s.
Proof.
  induction n as [|n IH]; intros s Hn.
  - destruct s; simpl in *; lia.
  - destruct s as [|u [|v s]]; simpl in *; try lia.
    destruct (JsString.is_high_surrogate u && JsString.is_low_surrogate v).
    + assert (List.length s <= 2 * JsString.code_point_length s)
        by (apply IH; lia).
      lia.
    + assert (List.length (v :: s) <= 2 * JsString.code_point_length (v :: s))
        by (apply IH; simpl; lia).
      simpl in *; lia.
Qed.

(** A code point takes one or two code units. *)
Lemma code_units_of_code_points (s : JsString.t) :
  List.length s <= 2 * JsString.code_point_length s.
Proof.
  apply code_units_of_code_points_aux with (n := List.length s). lia.
Qed.

(** ** The three paths of the wrapper *)

Section Paths.

Variable World : Type.
Variable detectAIText : JsString.t -> JS World Detector.result.

Lemma safeDetectAI_too_short (text : JsString.t) (w : World) :
  List.length (JsString.trim text) < 50 ->
  safeDetectAI detectAIText text w =
    (Returned
       {| isAIGenerated := false;
          confidence := 0;
          reasons := [JsString.lit "Text too short for reliable analysis"];
          score := 0;
          error := Some (JsString
                           (JsString.lit "Minimum 50 characters required"));
          perplexityScore := 0;
          burstinessScore := 0 |}, w).
Proof.
  intros Hshort. unfold safeDetectAI.
  apply Nat.ltb_lt in Hshort. rewrite Hshort. reflexivity.
Qed.

Lemma safeDetectAI_returned (text : JsString.t) (w w' : World)
    (d : Detector.result) :
  50 <= List.length (JsString.trim text) ->
  detectAIText text w = (Returned d, w') ->
  safeDetectAI detectAIText text w =
    (Returned
       {| isAIGenerated := Detector.isAIGenerated d;
          confidence := Detector.confidence d;
          reasons := Detector.reasons d;
          score := Detector.score d;
          error := Detector.error d;
          perplexityScore := Detector.score d * 10;
          burstinessScore := (1 - Detector.confidence d) * 10 |}, w').
Proof.
  intros Hlong Hcall. unfold safeDetectAI.
  apply Nat.ltb_ge in Hlong. rewrite Hlong.
  unfold try_catch, bind. rewrite Hcall. reflexivity.
Qed.

Lemma safeDetectAI_threw (text : JsString.t) (w w' : World) (e : thrown) :
  50 <= List.length (JsString.trim text) ->
  detectAIText text w = (Threw e, w') ->
  inspectable e = true ->
  safeDetectAI detectAIText text w =
    (Returned
       {| isAIGenerated := false;
          confidence := 0;
          reasons := [JsString.lit "Error analyzing text"];
          score := 0;
          error := Some match e with
                        | ErrorInstance message => message
                        | _ => JsString (JsString.lit "Unknown error")
                        end;
          perplexityScore := 0;
          burstinessScore := 0 |}, w').
Proof.
  intros Hlong Hcall Hinspect. unfold safeDetectAI.
  apply Nat.ltb_ge in Hlong. rewrite Hlong.
  unfold try_catch, bind. rewrite Hcall.
  destruct e; try discriminate Hinspect; reflexivity.
Qed.

Lemma safeDetectAI_rethrows (text : JsString.t) (w w' : World)
    (e raised : thrown) :
  50 <= List.length (JsString.trim text) ->
  detectAIText text w = (Threw e, w') ->
  e = ErrorWithThrowingMessage raised \/ e = Uninspectable raised ->
  safeDetectAI detectAIText text w = (Threw raised, w').
Proof.
  intros Hlong Hcall He. unfold safeDetectAI.
  apply Nat.ltb_ge in Hlong. rewrite Hlong.
  unfold try_catch, bind. rewrite Hcall.
  destruct He as [-> | ->]; reflexivity.
Qed.

Lemma not_inspectable (e : thrown) :
  inspectable e = false ->
  exists raised, e = ErrorWithThrowingMessage raised \/ e = Uninspectable raised.
Proof.
  destruct e as [v | m | raised | raised]; try discriminate; eauto.
Qed.

(** The wrapper returns unless the handler's look at the thrown value
    throws. *)
Lemma safeDetectAI_returns (text : JsString.t) (w : World) :
  (forall e w', 50 <= List.length (JsString.trim text) ->
                detectAIText text w = (Threw e, w') -> inspectable e = true) ->
  exists (r : AnalysisResult) (w' : World),
    safeDetectAI detectAIText text w = (Returned r, w').
Proof.
  intros Hinspect.
  destruct (Nat.lt_ge_cases (List.length (JsString.trim text)) 50)
    as [Hshort | Hlong].
  - do 2 eexists. exact (safeDetectAI_too_short text w Hshort).
  - destruct (detectAIText text w) as [[d | e] w1] eqn:Hcall.
    + do 2 eexists. exact (safeDetectAI_returned Hlong Hcall).
    + do 2 eexists.
      exact (safeDetectAI_threw Hlong Hcall (Hinspect _ _ Hlong eq_refl)).
Qed.

(** Behind the guard the wrapper does to the world what its one call
    of the detector does. *)
Lemma safeDetectAI_world (text : JsString.t) (w : World) :
  50 <= List.length (JsString.trim text) ->
  snd (safeDetectAI detectAIText text w) = snd (detectAIText text w).
Proof.
  intros Hlong.
  destruct (detectAIText text w) as [[d | e] w1] eqn:Hcall.
  - rewrite (safeDetectAI_returned Hlong Hcall). reflexivity.
  - destruct (inspectable e) eqn:Hinspect.
    + rewrite (safeDetectAI_threw Hlong Hcall Hinspect). reflexivity.
    + destruct (not_inspectable _ Hinspect) as (raised & He).
      rewrite (safeDetectAI_rethrows Hlong Hcall He). reflexivity.
Qed.

End Paths.

(** ** The short-input guard *)

Section Guard.

Variable World : Type.
Variable detectAIText : JsString.t -> JS World Detector.result.

(** C1, as amended: a text whose trimmed length is under 50 UTF-16 code
    units (the unit of JavaScript's [length]) gets the fixed result
    [isAIGenerated = false], [confidence = 0], [score = 0], both display
    scores 0, one reason and the minimum-length message in [error], and
    the world is left as it was. The empty string and every string of
    at most 10 characters, counted in code units or in code points, are
    such texts. *)
Theorem short_input_result (text : JsString.t) (w : World) :
  List.length (JsString.trim text) < 50 \/
  List.length text <= 10 \/
  JsString.code_point_length text <= 10 ->
  exists r : AnalysisResult,
    safeDetectAI detectAIText text w = (Returned r, w) /\
    isAIGenerated r = false /\
    confidence r = 0%float /\
    score r = 0%float /\
    perplexityScore r = 0%float /\
    burstinessScore r = 0%float /\
    (exists reason, reasons r = [reason]) /\
    error r = Some (JsString (JsString.lit "Minimum 50 characters required")).
Proof.
  intros Hshort.
  assert (Hguard : List.length (JsString.trim text) < 50).
  { pose proof (trim_length text) as Htrim.
    pose proof (code_units_of_code_points text) as Hunits.
    destruct Hshort as [H | [H | H]]; lia. }
  eexists. split; [apply safeDetectAI_too_short; exact Hguard|].
  simpl. repeat split. eexists; reflexivity.
Qed.

End Guard.

Lemma short_input_result_witness :
  (exists r : AnalysisResult,
     safeDetectAI (detector_counting ai_verdict) ten_characters 0 =
       (Returned r, 0) /\
     isAIGenerated r = false /\
     confidence r = 0%float /\
     score r = 0%float /\
     perplexityScore r = 0%float /\
     burstinessScore r = 0%float /\
     (exists reason, reasons r = [reason]) /\
     error r = Some (JsString (JsString.lit "Minimum 50 characters required"))) /\
  (exists r : AnalysisResult,
     safeDetectAI (detector_counting ai_verdict) [] 0 = (Returned r, 0) /\
     isAIGenerated r = false /\
     confidence r = 0%float /\
     score r = 0%float /\
     perplexityScore r = 0%float /\
     burstinessScore r = 0%float /\
     (exists reason, reasons r = [reason]) /\
     error r = Some (JsString (JsString.lit "Minimum 50 characters required"))).
Proof.
  split.
  - apply (@short_input_result nat (detector_counting ai_verdict)
             ten_characters 0).
    right; left. vm_compute. lia.
  - apply (@short_input_result nat (detector_counting ai_verdict) [] 0).
    left. vm_compute. lia.
Defined.

(** Against C1 as stated, with the length in code points: twenty-five
    emoji are 25 code points but 50 code units, so the guard lets them
    through and the detector's verdict comes back. *)
Lemma short_in_code_points_counterexample :
  JsString.well_formed emoji_text /\
  JsString.code_point_length (JsString.trim emoji_text) = 25 /\
  List.length (JsString.trim emoji_text) = 50 /\
  exists r : AnalysisResult,
    safeDetectAI (detector_returning ai_verdict) emoji_text tt =
      (Returned r, tt) /\
    isAIGenerated r = true /\
    confidence r = 0.75%float /\
    score r = 0.875%float /\
    error r = None.
Proof.
  split.
  { unfold JsString.well_formed, emoji_text. simpl.
    repeat constructor. }
  split; [reflexivity|]. split; [reflexivity|].
  eexists. split; [reflexivity|].
  simpl. repeat split.
Qed.

(** ** Failures of the detector *)

Lemma zero_is_not_ten : 0%float <> 10%float.
Proof.
  intros H. apply (f_equal (fun x => PrimFloat.eqb x 0)) in H.
  vm_compute in H. discriminate.
Qed.

Section Failures.

Variable World : Type.
Variable detectAIText : JsString.t -> JS World Detector.result.


(** C10, as amended: when [detectAIText] throws behind the guard a
    value the handler can look at, [error] is the message of that
    value, as read and of whatever kind, if the value is an instance of
    [Error], and the string "Unknown error" otherwise; so [error] is a
    string exactly when the value is no [Error] or its message is a
    string. On that path [reasons] is the one-element list
    ["Error analyzing text"]. *)
Theorem caught_failure_message (text : JsString.t) (w w' : World)
    (e : thrown) :
  50 <= List.length (JsString.trim text) ->
  detectAIText text w = (Threw e, w') ->
  inspectable e = true ->
  exists r : AnalysisResult,
    safeDetectAI detectAIText text w = (Returned r, w') /\
    error r = Some match e with
                   | ErrorInstance message => message
                   | _ => JsString (JsString.lit "Unknown error")
                   end /\
    ((exists s, error r = Some (JsString s)) <->
     (forall message, e = ErrorInstance message ->
                      exists s, message = JsString s)) /\
    reasons r = [JsString.lit "Error analyzing text"].
Proof.
  intros Hlong Hcall Hinspect.
  eexists.
  split; [exact (safeDetectAI_threw _ _ _ Hlong Hcall Hinspect)|].
  simpl. split; [reflexivity|]. split; [|reflexivity].
  destruct e as [v | m | raised | raised]; try discriminate Hinspect.
  - split; [intros _ message Habs; discriminate Habs | eauto].
  - split.
    + intros (s & Hs) message Heq.
      injection Heq as <-. injection Hs as ->. eauto.
    + intros Hm. destruct (Hm m eq_refl) as (s & ->). eauto.
Qed.

(** C8: on both degenerate paths (text too short, or [detectAIText]
    throwing behind the guard) every record handed back has
    [burstinessScore] 0 while its [confidence] is 0 as well, so
    [(1 - confidence) * 10] is 10 and differs from the [burstinessScore]
    returned; and a record is handed back on these paths unless the
    handler's look at the thrown value throws. *)
Theorem degenerate_burstiness (text : JsString.t) (w : World) :
  List.length (JsString.trim text) < 50 \/
  (exists (e : thrown) (w' : World), detectAIText text w = (Threw e, w')) ->
  (forall (r : AnalysisResult) (w' : World),
     safeDetectAI detectAIText text w = (Returned r, w') ->
     burstinessScore r = 0%float /\
     confidence r = 0%float /\
     ((1 - confidence r) * 10)%float = 10%float /\
     burstinessScore r <> ((1 - confidence r) * 10)%float /\
     PrimFloat.eqb (burstinessScore r) ((1 - confidence r) * 10) = false) /\
  (List.length (JsString.trim text) < 50 \/
   (exists (e : thrown) (w' : World),
      detectAIText text w = (Threw e, w') /\ inspectable e = true) ->
   exists (r : AnalysisResult) (w' : World),
     safeDetectAI detectAIText text w = (Returned r, w')).
Proof.
  intros Hdegenerate.
  destruct (Nat.lt_ge_cases (List.length (JsString.trim text)) 50)
    as [Hshort | Hlong].
  - pose proof (safeDetectAI_too_short detectAIText text w Hshort) as Hrun.
    split; [|eauto].
    intros r w' Hr. rewrite Hrun in Hr. injection Hr as <- _.
    simpl. repeat split. exact zero_is_not_ten.
  - destruct Hdegenerate as [Hshort | (e & w1 & Hcall)]; [lia|].
    split.
    + intros r w' Hr.
      destruct (inspectable e) eqn:Hinspect.
      * rewrite (safeDetectAI_threw _ _ _ Hlong Hcall Hinspect) in Hr.
        injection Hr as <- _.
        simpl. repeat split. exact zero_is_not_ten.
      * destruct (not_inspectable _ Hinspect) as (raised & He).
        rewrite (safeDetectAI_rethrows _ _ _ Hlong Hcall He) in Hr.
        discriminate Hr.
    + intros [Hshort | (e' & w' & Hcall' & Hinspect)]; [lia|].
      do 2 eexists.
      exact (safeDetectAI_threw _ _ _ Hlong Hcall' Hinspect).
Qed.

End Failures.



Lemma caught_failure_message_witness :
  (exists r : AnalysisResult,
     safeDetectAI
       (detector_throwing (ErrorInstance (JsString (JsString.lit "boom"))))
       long_text tt = (Returned r, tt) /\
     error r = Some (JsString (JsString.lit "boom")) /\
     ((exists s, error r = Some (JsString s)) <->
      (forall message,
         ErrorInstance (JsString (JsString.lit "boom")) =
           ErrorInstance message ->
         exists s, message = JsString s)) /\
     reasons r = [JsString.lit "Error analyzing text"]) /\
  (exists r : AnalysisResult,
     safeDetectAI
       (detector_throwing (NotAnError (JsString (JsString.lit "boom"))))
       long_text tt = (Returned r, tt) /\
     error r = Some (JsString (JsString.lit "Unknown error")) /\
     ((exists s, error r = Some (JsString s)) <->
      (forall message,
         NotAnError (JsString (JsString.lit "boom")) = ErrorInstance message ->
         exists s, message = JsString s)) /\
     reasons r = [JsString.lit "Error analyzing text"]).
Proof.
  split.
  - apply (@caught_failure_message unit
             (detector_throwing (ErrorInstance (JsString (JsString.lit "boom"))))
             long_text tt tt (ErrorInstance (JsString (JsString.lit "boom")))).
    + vm_compute. lia.
    + reflexivity.
    + reflexivity.
  - apply (@caught_failure_message unit
             (detector_throwing (NotAnError (JsString (JsString.lit "boom"))))
             long_text tt tt (NotAnError (JsString (JsString.lit "boom")))).
    + vm_compute. lia.
    + reflexivity.
    + reflexivity.
Defined.

(** Against C10 as stated: the message of a thrown [Error] is copied
    as it is read, so with a message that is [undefined] or a number
    the [error] handed back is no string. *)
Lemma message_not_a_string_counterexample :
  (exists r : AnalysisResult,
     safeDetectAI (detector_throwing (ErrorInstance JsUndefined))
       long_text tt = (Returned r, tt) /\
     error r = Some JsUndefined /\
     forall s, error r <> Some (JsString s)) /\
  (exists r : AnalysisResult,
     safeDetectAI (detector_throwing (ErrorInstance (JsNumber 42)))
       long_text tt = (Returned r, tt) /\
     error r = Some (JsNumber 42) /\
     forall s, error r <> Some (JsString s)).
Proof.
  split; eexists; (split; [reflexivity|]); simpl;
    (split; [reflexivity | intros s Habs; discriminate Habs]).
Qed.

Lemma degenerate_burstiness_witness :
  (exists (r : AnalysisResult) (n : nat),
     safeDetectAI (detector_counting ai_verdict) padded_text 0 =
       (Returned r, n) /\
     burstinessScore r = 0%float /\
     confidence r = 0%float /\
     ((1 - confidence r) * 10)%float = 10%float /\
     burstinessScore r <> ((1 - confidence r) * 10)%float /\
     PrimFloat.eqb (burstinessScore r) ((1 - confidence r) * 10) = false) /\
  (exists (r : AnalysisResult) (w : unit),
     safeDetectAI (detector_throwing (NotAnError JsUndefined)) long_text tt =
       (Returned r, w) /\
     burstinessScore r = 0%float /\
     confidence r = 0%float /\
     ((1 - confidence r) * 10)%float = 10%float /\
     burstinessScore r <> ((1 - confidence r) * 10)%float /\
     PrimFloat.eqb (burstinessScore r) ((1 - confidence r) * 10) = false).
Proof.
  split.
  - assert (Hshort : List.length (JsString.trim padded_text) < 50)
      by (vm_compute; lia).
    destruct (@degenerate_burstiness nat (detector_counting ai_verdict)
                padded_text 0 (or_introl Hshort)) as [Hall Hsome].
    destruct (Hsome (or_introl Hshort)) as (r & n & Hrun).
    exists r, n. split; [exact Hrun | exact (Hall r n Hrun)].
  - assert (Hthrew :
              exists (e : thrown) (w' : unit),
                detector_throwing (NotAnError JsUndefined) long_text tt =
                  (Threw e, w') /\ inspectable e = true).
    { exists (NotAnError JsUndefined), tt. split; reflexivity. }
    destruct (@degenerate_burstiness unit
                (detector_throwing (NotAnError JsUndefined)) long_text tt)
      as [Hall Hsome].
    { right. exists (NotAnError JsUndefined), tt. reflexivity. }
    destruct (Hsome (or_intror Hthrew)) as (r & w & Hrun).
    exists r, w. split; [exact Hrun | exact (Hall r w Hrun)].
Defined.

(** ** The successful path *)

Section Success.

Variable World : Type.
Variable detectAIText : JsString.t -> JS World Detector.result.

(** C3: when the text passes the guard and [detectAIText] returns, the
    record handed back has [perplexityScore] equal to its [score] times
    10 and [burstinessScore] equal to 1 minus its [confidence], times
    10, as the very same binary64 values. *)
Theorem display_score_identities (text : JsString.t) (w w' : World)
    (d : Detector.result) :
  50 <= List.length (JsString.trim text) ->
  detectAIText text w = (Returned d, w') ->
  exists r : AnalysisResult,
    safeDetectAI detectAIText text w = (Returned r, w') /\
    perplexityScore r = (score r * 10)%float /\
    burstinessScore r = ((1 - confidence r) * 10)%float.
Proof.
  intros Hlong Hcall.
  eexists. split; [exact (safeDetectAI_returned _ _ _ Hlong Hcall)|].
  simpl. split; reflexivity.
Qed.

(** C7: in every record [safeDetectAI] hands back, [error] is set
    exactly when the text is too short, or [detectAIText] threw, or the
    record [detectAIText] returned carries one itself; when
    [detectAIText] returns, [error] is the one of its record, the
    wrapper adds none. And a record is handed back unless the handler's
    look at a thrown value throws. *)
Theorem error_field_presence (text : JsString.t) (w : World) :
  (forall (r : AnalysisResult) (w' : World),
     safeDetectAI detectAIText text w = (Returned r, w') ->
     (error r <> None <->
        List.length (JsString.trim text) < 50 \/
        (exists e w1, detectAIText text w = (Threw e, w1)) \/
        (exists d w1, detectAIText text w = (Returned d, w1) /\
                      Detector.error d <> None)) /\
     (forall d w1,
        50 <= List.length (JsString.trim text) ->
        detectAIText text w = (Returned d, w1) ->
        error r = Detector.error d)) /\
  ((forall (e : thrown) (w' : World),
      50 <= List.length (JsString.trim text) ->
      detectAIText text w = (Threw e, w') -> inspectable e = true) ->
   exists (r : AnalysisResult) (w' : World),
     safeDetectAI detectAIText text w = (Returned r, w')).
Proof.
  split; [|exact (safeDetectAI_returns detectAIText text w)].
  intros r w' Hr.
  destruct (Nat.lt_ge_cases (List.length (JsString.trim text)) 50)
    as [Hshort | Hlong].
  - rewrite (safeDetectAI_too_short detectAIText text w Hshort) in Hr.
    injection Hr as <- _. simpl. split.
    + split; [auto | discriminate].
    + intros; lia.
  - destruct (detectAIText text w) as [[d | e] w1] eqn:Hcall.
    + rewrite (safeDetectAI_returned _ _ _ Hlong Hcall) in Hr.
      injection Hr as <- _. simpl. split.
      * split.
        -- intros Hset. right; right. exists d, w1. auto.
        -- intros [Hshort | [(e & w2 & Habs) | (d' & w2 & Heq & Hset)]].
           ++ lia.
           ++ discriminate Habs.
           ++ injection Heq as -> _. exact Hset.
      * intros d' w2 _ Heq. injection Heq as -> _. reflexivity.
    + destruct (inspectable e) eqn:Hinspect.
      * rewrite (safeDetectAI_threw _ _ _ Hlong Hcall Hinspect) in Hr.
        injection Hr as <- _. simpl. split.
        -- split; [|discriminate].
           intros _. right; left. eauto.
        -- intros d w2 _ Habs. discriminate Habs.
      * destruct (not_inspectable _ Hinspect) as (raised & He).
        rewrite (safeDetectAI_rethrows _ _ _ Hlong Hcall He) in Hr.
        discriminate Hr.
Qed.

End Success.

(** C9: when the text passes the guard and [detectAIText] returns,
    [isAIGenerated], [confidence], [reasons], [score] and [error] of
    the record handed back are those of the detector's record, and the
    two display scores are [score * 10] and [(1 - confidence) * 10]
    whatever display scores the detector's record carried: put any
    others in their place and the wrapper hands back the same record. *)
Theorem successful_path_frame (World : Type)
    (detectAIText detectAIText' : JsString.t -> JS World Detector.result)
    (text : JsString.t) (w w' : World) (d : Detector.result)
    (p b : option float) :
  50 <= List.length (JsString.trim text) ->
  detectAIText text w = (Returned d, w') ->
  detectAIText' text w = (Returned (supplying d p b), w') ->
  exists r : AnalysisResult,
    safeDetectAI detectAIText text w = (Returned r, w') /\
    isAIGenerated r = Detector.isAIGenerated d /\
    confidence r = Detector.confidence d /\
    reasons r = Detector.reasons d /\
    score r = Detector.score d /\
    error r = Detector.error d /\
    perplexityScore r = (Detector.score d * 10)%float /\
    burstinessScore r = ((1 - Detector.confidence d) * 10)%float /\
    safeDetectAI detectAIText' text w = (Returned r, w').
Proof.
  intros Hlong Hcall Hcall'.
  eexists. split; [exact (safeDetectAI_returned _ _ _ Hlong Hcall)|].
  simpl. repeat (split; [reflexivity|]).
  exact (safeDetectAI_returned _ _ _ Hlong Hcall').
Qed.

Lemma display_score_identities_witness :
  exists r : AnalysisResult,
    safeDetectAI (detector_counting ai_verdict) long_text 0 =
      (Returned r, 1) /\
    perplexityScore r = (score r * 10)%float /\
    burstinessScore r = ((1 - confidence r) * 10)%float.
Proof.
  apply (@display_score_identities nat (detector_counting ai_verdict)
           long_text 0 1 ai_verdict).
  - vm_compute. lia.
  - reflexivity.
Defined.

Lemma successful_path_frame_witness :
  exists r : AnalysisResult,
    safeDetectAI (detector_returning bare_verdict) long_text tt =
      (Returned r, tt) /\
    isAIGenerated r = true /\
    confidence r = 0.75%float /\
    reasons r = [JsString.lit "Sentence length is unusually uniform"] /\
    score r = 0.875%float /\
    error r = None /\
    perplexityScore r = 8.75%float /\
    burstinessScore r = 2.5%float /\
    safeDetectAI (detector_returning ai_verdict) long_text tt =
      (Returned r, tt).
Proof.
  apply (@successful_path_frame unit (detector_returning bare_verdict)
           (detector_returning ai_verdict) long_text tt tt bare_verdict
           (Some 3%float) (Some 4%float)).
  - vm_compute. lia.
  - reflexivity.
  - reflexivity.
Defined.

(** ** Calls of the detector *)

(** C5: on a text whose trimmed length is under 50 the wrapper returns
    without calling [detectAIText]: it leaves the world untouched,
    whatever the detector would have done to it, and hands back the
    same record with any two detectors. *)
Theorem short_input_skips_detector (World World' : Type)
    (detectAIText : JsString.t -> JS World Detector.result)
    (detectAIText' : JsString.t -> JS World' Detector.result)
    (text : JsString.t) (w : World) (w' : World') :
  List.length (JsString.trim text) < 50 ->
  snd (safeDetectAI detectAIText text w) = w /\
  fst (safeDetectAI detectAIText text w) =
    fst (safeDetectAI detectAIText' text w').
Proof.
  intros Hshort.
  rewrite (safeDetectAI_too_short detectAIText text w Hshort).
  rewrite (safeDetectAI_too_short detectAIText' text w' Hshort).
  split; reflexivity.
Qed.

Lemma short_input_skips_detector_witness :
  snd (safeDetectAI (detector_counting ai_verdict) padded_text 0) = 0 /\
  fst (safeDetectAI (detector_counting ai_verdict) padded_text 0) =
    fst (safeDetectAI (detector_throwing (NotAnError JsNull)) padded_text tt).
Proof.
  apply (@short_input_skips_detector nat unit (detector_counting ai_verdict)
           (detector_throwing (NotAnError JsNull)) padded_text 0 tt).
  vm_compute. lia.
Defined.

(** The wrapper keeps no state of its own but passes the detector's on:
    with a detector that has a memory, two calls on the same text
    differ. *)
Example stateful_detector_shows :
  safeDetectAI (detector_alternating ai_verdict) long_text 0 =
    (Returned
       {| isAIGenerated := true;
          confidence := 0.75;
          reasons := [JsString.lit "Sentence length is unusually uniform"];
          score := 0.875;
          error := None;
          perplexityScore := 8.75;
          burstinessScore := 2.5 |}, 1) /\
  safeDetectAI (detector_alternating ai_verdict) long_text 1 =
    (Returned
       {| isAIGenerated := false;
          confidence := 0;
          reasons := [JsString.lit "Error analyzing text"];
          score := 0;
          error := Some (JsString (JsString.lit "Unknown error"));
          perplexityScore := 0;
          burstinessScore := 0 |}, 2).
Proof. split; reflexivity. Qed.

(** ** More on [trim] *)

Lemma trim_start_split (s : JsString.t) :
  exists pre, s = (pre ++ JsString.trim_start s)%list /\ blank pre.
Proof.
  induction s as [|u s (pre & Hs & Hpre)]; simpl.
  - exists []. split; [reflexivity | constructor].
  - destruct (JsString.is_trim_space u) eqn:Hu.
    + exists (u :: pre). split.
      * simpl. f_equal. exact Hs.
      * constructor; assumption.
    + exists []. split; [reflexivity | constructor].
Qed.

Lemma trim_start_head (s : JsString.t) (u : JsString.code_unit)
    (rest : JsString.t) :
  JsString.trim_start s = u :: rest -> JsString.is_trim_space u = false.
Proof.
  induction s as [|v s IH]; simpl; [discriminate|].
  destruct (JsString.is_trim_space v) eqn:Hv; [exact IH|].
  intros Heq. injection Heq as <- _. exact Hv.
Qed.

Lemma trim_start_blank (s : JsString.t) :
  blank s -> JsString.trim_start s = [].
Proof.
  induction 1 as [|u s Hu _ IH]; simpl; [reflexivity|].
  rewrite Hu. exact IH.
Qed.

Lemma trim_start_blank_app (pre s : JsString.t) :
  blank pre -> JsString.trim_start (pre ++ s) = JsString.trim_start s.
Proof.
  induction 1 as [|u pre Hu _ IH]; simpl; [reflexivity|].
  rewrite Hu. exact IH.
Qed.

Lemma trim_start_keeps (u : JsString.code_unit) (s : JsString.t) :
  JsString.is_trim_space u = false -> JsString.trim_start (u :: s) = u :: s.
Proof. intros Hu. simpl. rewrite Hu. reflexivity. Qed.

Lemma trim_start_app (s t : JsString.t) :
  JsString.trim_start s <> [] ->
  JsString.trim_start (s ++ t) = (JsString.trim_start s ++ t)%list.
Proof.
  induction s as [|u s IH]; simpl; [congruence|].
  destruct (JsString.is_trim_space u); [exact IH | reflexivity].
Qed.

Lemma trim_end_split (s : JsString.t) :
  exists post, s = (JsString.trim_end s ++ post)%list /\ blank post.
Proof.
  unfold JsString.trim_end.
  destruct (trim_start_split (rev s)) as (pre & Hs & Hpre).
  exists (rev pre). split.
  - rewrite <- rev_app_distr, <- Hs, rev_involutive. reflexivity.
  - apply Forall_rev. exact Hpre.
Qed.

Lemma trim_end_last (s front : JsString.t) (u : JsString.code_unit) :
  JsString.trim_end s = (front ++ [u])%list ->
  JsString.is_trim_space u = false.
Proof.
  unfold JsString.trim_end. intros Heq.
  apply (f_equal (@rev _)) in Heq.
  rewrite rev_involutive, rev_app_distr in Heq. simpl in Heq.
  exact (@trim_start_head _ _ _ Heq).
Qed.

Lemma trim_end_blank_app (s post : JsString.t) :
  blank post -> JsString.trim_end (s ++ post) = JsString.trim_end s.
Proof.
  intros Hpost. unfold JsString.trim_end.
  rewrite rev_app_distr, trim_start_blank_app; [reflexivity|].
  apply Forall_rev. exact Hpost.
Qed.

Lemma trim_end_keeps_head (u : JsString.code_unit) (s : JsString.t) :
  JsString.is_trim_space u = false ->
  exists rest, JsString.trim_end (u :: s) = u :: rest.
Proof.
  intros Hu.
  destruct (trim_end_split (u :: s)) as (post & Hs & Hpost).
  destruct (JsString.trim_end (u :: s)) as [|v rest] eqn:Hend.
  - simpl in Hs. subst post. inversion Hpost; congruence.
  - simpl in Hs. injection Hs as <- _. exists rest. reflexivity.
Qed.

Lemma trim_end_keeps (s : JsString.t) :
  (forall front u, s = (front ++ [u])%list ->
                   JsString.is_trim_space u = false) ->
  JsString.trim_end s = s.
Proof.
  intros Hlast. unfold JsString.trim_end.
  destruct (rev s) as [|u r] eqn:Hrev.
  - apply (f_equal (@rev _)) in Hrev. rewrite rev_involutive in Hrev.
    subst s. reflexivity.
  - apply (f_equal (@rev _)) in Hrev. rewrite rev_involutive in Hrev.
    simpl in Hrev.
    rewrite (@trim_start_keeps u r (Hlast _ _ Hrev)).
    simpl. symmetry. exact Hrev.
Qed.

Lemma trim_ends (s : JsString.t) :
  (forall u rest, JsString.trim s = u :: rest ->
                  JsString.is_trim_space u = false) /\
  (forall front u, JsString.trim s = (front ++ [u])%list ->
                   JsString.is_trim_space u = false).
Proof.
  unfold JsString.trim. split.
  - intros u rest Heq.
    destruct (JsString.trim_start s) as [|v r] eqn:Hstart;
      [discriminate Heq|].
    pose proof (@trim_start_head _ _ _ Hstart) as Hv.
    destruct (@trim_end_keeps_head v r Hv) as (rest' & Hend).
    rewrite Hend in Heq. injection Heq as <- _. exact Hv.
  - intros front u Heq. exact (@trim_end_last _ _ _ Heq).
Qed.

(** [trim] cuts a blank prefix and a blank suffix off the string and
    what it keeps neither starts nor ends with a blank. *)
Theorem trim_shape (s : JsString.t) :
  (exists pre post,
     s = (pre ++ JsString.trim s ++ post)%list /\ blank pre /\ blank post) /\
  (forall u rest, JsString.trim s = u :: rest ->
                  JsString.is_trim_space u = false) /\
  (forall front u, JsString.trim s = (front ++ [u])%list ->
                   JsString.is_trim_space u = false).
Proof.
  unfold JsString.trim.
  destruct (trim_start_split s) as (pre & Hs & Hpre).
  destruct (trim_end_split (JsString.trim_start s)) as (post & Hr & Hpost).
  split; [|exact (trim_ends s)].
  exists pre, post. split; [|split; assumption].
  rewrite <- Hr. exact Hs.
Qed.

Lemma trim_blank_margins (pre s post : JsString.t) :
  blank pre -> blank post ->
  JsString.trim (pre ++ s ++ post) = JsString.trim s.
Proof.
  intros Hpre Hpost. unfold JsString.trim.
  rewrite (@trim_start_blank_app pre _ Hpre).
  destruct (JsString.trim_start s) as [|u r] eqn:Hstart.
  - destruct (trim_start_split s) as (pre' & Hs & Hpre').
    rewrite Hstart, app_nil_r in Hs. subst pre'.
    rewrite trim_start_blank; [reflexivity|].
    apply Forall_app. split; assumption.
  - rewrite trim_start_app by (rewrite Hstart; discriminate).
    rewrite Hstart. apply trim_end_blank_app. exact Hpost.
Qed.

(** Blanks around a text do not count: [trim] gives the same string
    with or without them, so the guard of [safeDetectAI] decides the
    same way. *)
Theorem trim_ignores_padding (pre s post : JsString.t) :
  blank pre -> blank post ->
  JsString.trim (pre ++ s ++ post) = JsString.trim s /\
  (List.length (JsString.trim (pre ++ s ++ post)) <? 50) =
    (List.length (JsString.trim s) <? 50).
Proof.
  intros Hpre Hpost.
  pose proof (@trim_blank_margins pre s post Hpre Hpost) as Htrim.
  split; [exact Htrim | rewrite Htrim; reflexivity].
Qed.

(** Trimming twice is trimming once. *)
Theorem trim_idempotent (s : JsString.t) :
  JsString.trim (JsString.trim s) = JsString.trim s.
Proof.
  destruct (trim_ends s) as (Hhead & Hlast).
  unfold JsString.trim at 1.
  destruct (JsString.trim s) as [|u r] eqn:Htrim; [reflexivity|].
  rewrite (@trim_start_keeps u r (Hhead _ _ eq_refl)).
  apply trim_end_keeps. exact Hlast.
Qed.

(** ** The guard and the call *)

(** The guard looks at the trimmed text but the detector gets the text
    as it came: a text that is long enough once its blank margins are
    cut is handed to [detectAIText] with the margins on, in one call
    that accounts for all the wrapper does to the world. *)
Theorem detector_gets_untrimmed_text (World : Type)
    (detectAIText : JsString.t -> JS World Detector.result)
    (pre s post : JsString.t) (w : World) :
  blank pre -> blank post ->
  50 <= List.length (JsString.trim s) ->
  snd (safeDetectAI detectAIText (pre ++ s ++ post) w) =
    snd (detectAIText (pre ++ s ++ post)%list w) /\
  (forall d w', detectAIText (pre ++ s ++ post)%list w = (Returned d, w') ->
     exists r, safeDetectAI detectAIText (pre ++ s ++ post) w =
                 (Returned r, w') /\
               score r = Detector.score d /\
               reasons r = Detector.reasons d).
Proof.
  intros Hpre Hpost Hlong.
  assert (Hguard : 50 <= List.length (JsString.trim (pre ++ s ++ post))).
  { rewrite (@trim_blank_margins pre s post Hpre Hpost). exact Hlong. }
  split.
  - exact (safeDetectAI_world detectAIText _ w Hguard).
  - intros d w' Hcall. eexists.
    split; [exact (safeDetectAI_returned _ _ _ Hguard Hcall)|].
    split; reflexivity.
Qed.

Lemma detector_gets_untrimmed_text_witness :
  snd (safeDetectAI (detector_counting ai_verdict)
         (repeat 32%N 3 ++ long_text ++ [10%N]) 0) = 1.
Proof.
  refine (proj1 (@detector_gets_untrimmed_text nat
                   (detector_counting ai_verdict)
                   (repeat 32%N 3) long_text [10%N] 0 _ _ _)).
  - repeat constructor.
  - repeat constructor.
  - vm_compute. lia.
Defined.

(** ** Objects as maps *)

Lemma string_eqb_eq (s t : JsString.t) : string_eqb s t = true <-> s = t.
Proof.
  revert t. induction s as [|u s IH]; intros [|v t]; simpl;
    try (split; [discriminate | discriminate]); [tauto|].
  rewrite andb_true_iff, N.eqb_eq, IH.
  split; [intros [-> ->]; reflexivity | intros H; injection H; auto].
Qed.

Lemma string_eqb_refl (s : JsString.t) : string_eqb s s = true.
Proof. apply string_eqb_eq. reflexivity. Qed.

Lemma string_eqb_neq (s t : JsString.t) : s <> t -> string_eqb s t = false.
Proof.
  intros Hneq. destruct (string_eqb s t) eqn:Heq; [|reflexivity].
  apply string_eqb_eq in Heq. contradiction.
Qed.

Lemma get_set_same (key : JsString.t) (value : bool) (o : JsObject.t) :
  JsObject.get key (JsObject.set key value o) = Some value.
Proof.
  induction o as [|[k v] o IH]; simpl.
  - rewrite string_eqb_refl. reflexivity.
  - destruct (string_eqb key k) eqn:Hk; simpl; rewrite Hk;
      [reflexivity | exact IH].
Qed.

Lemma get_set_other (key key' : JsString.t) (value : bool) (o : JsObject.t) :
  key' <> key ->
  JsObject.get key' (JsObject.set key value o) = JsObject.get key' o.
Proof.
  intros Hneq. induction o as [|[k v] o IH]; simpl.
  - rewrite (string_eqb_neq Hneq). reflexivity.
  - destruct (string_eqb key k) eqn:Hk; simpl.
    + apply string_eqb_eq in Hk. subst k.
      rewrite (string_eqb_neq Hneq). reflexivity.
    + rewrite IH. reflexivity.
Qed.

Lemma keys_set (key : JsString.t) (value : bool) (o : JsObject.t) :
  (In key (JsObject.keys o) ->
   JsObject.keys (JsObject.set key value o) = JsObject.keys o) /\
  (~ In key (JsObject.keys o) ->
   JsObject.keys (JsObject.set key value o) = (JsObject.keys o ++ [key])%list).
Proof.
  induction o as [|[k v] o [IHin IHout]]; simpl.
  - split; [contradiction | reflexivity].
  - destruct (string_eqb key k) eqn:Hk; simpl.
    + apply string_eqb_eq in Hk. subst k.
      split; [reflexivity | intros Hout; exfalso; apply Hout; left; reflexivity].
    + assert (Hneq : k <> key).
      { intros ->. rewrite string_eqb_refl in Hk. discriminate. }
      split.
      * intros [Heq | Hin]; [contradiction|]. rewrite (IHin Hin). reflexivity.
      * intros Hout. rewrite IHout; [reflexivity|]. tauto.
Qed.

(** Writing a key of [copiedStates] and reading it back gives the value
    written, every other key reads as before, no key is dropped or
    doubled, and a new key goes last. *)
Theorem copiedStates_write_read (key : JsString.t) (value : bool)
    (o : JsObject.t) :
  JsObject.get key (JsObject.set key value o) = Some value /\
  (forall key', key' <> key ->
     JsObject.get key' (JsObject.set key value o) = JsObject.get key' o) /\
  (NoDup (JsObject.keys o) -> NoDup (JsObject.keys (JsObject.set key value o))) /\
  (forall key', In key' (JsObject.keys (JsObject.set key value o)) <->
                key' = key \/ In key' (JsObject.keys o)).
Proof.
  destruct (keys_set key value o) as [Hin Hout].
  split; [apply get_set_same|].
  split; [intros key' Hneq; apply get_set_other; exact Hneq|].
  destruct (in_dec (list_eq_dec N.eq_dec) key (JsObject.keys o)) as [H | H].
  - rewrite (Hin H). split; [auto|].
    intros key'. split; [auto | intros [-> | H']; assumption].
  - rewrite (Hout H). split.
    + intros Hnodup. apply NoDup_app; [exact Hnodup| constructor; [intros []|constructor] |].
      intros x Hx [<- | []]. contradiction.
    + intros key'. rewrite in_app_iff. simpl. intuition congruence.
Qed.

(** ** Pending callbacks *)

Lemma nth_error_snoc (A : Type) (l : list A) (x : A) :
  nth_error (l ++ [x]) (List.length l) = Some x.
Proof. induction l as [|y l IH]; simpl; [reflexivity | exact IH]. Qed.

Lemma remove_nth_snoc (A : Type) (l : list A) (x : A) :
  Home.remove_nth (List.length l) (l ++ [x]) = l.
Proof.
  induction l as [|y l IH]; simpl; [reflexivity | rewrite IH; reflexivity].
Qed.

Lemma remove_nth_subset (A : Type) (n : nat) (l : list A) (x : A) :
  In x (Home.remove_nth n l) -> In x l.
Proof.
  revert n. induction l as [|y l IH]; intros [|n]; simpl; auto.
  intros [-> | Hin]; [left; reflexivity | right; exact (IH _ Hin)].
Qed.

Lemma remove_nth_keeps (A : Type) (n : nat) (l : list A) (x y : A) :
  In x l -> nth_error l n = Some y -> x <> y -> In x (Home.remove_nth n l).
Proof.
  revert n. induction l as [|z l IH]; intros [|n]; simpl;
    try contradiction.
  - intros [-> | Hin] Heq Hneq; [congruence | exact Hin].
  - intros [-> | Hin] Heq Hneq; [left; reflexivity|].
    right. exact (IH _ Hin Heq Hneq).
Qed.

Lemma analysis_timers_app (l l' : list Home.task) :
  Home.analysis_timers (l ++ l') =
    (Home.analysis_timers l ++ Home.analysis_timers l')%list.
Proof.
  induction l as [|[x | x b | b] l IH]; simpl; rewrite ?IH; reflexivity.
Qed.

Lemma analysis_timers_subset (n : nat) (l : list Home.task) (x : JsString.t) :
  In x (Home.analysis_timers (Home.remove_nth n l)) ->
  In x (Home.analysis_timers l).
Proof.
  revert n. induction l as [|[y | y b | b] l IH]; intros [|n]; simpl; auto.
  - intros [-> | Hin]; [left; reflexivity | right; exact (IH _ Hin)].
  - apply IH.
  - apply IH.
Qed.

Lemma analysis_timers_settled (n : nat) (l : list Home.task) (x : JsString.t) :
  nth_error l n = Some (Home.AnalysisTimer x) ->
  In x (Home.analysis_timers l) /\
  S (List.length (Home.analysis_timers (Home.remove_nth n l))) =
    List.length (Home.analysis_timers l).
Proof.
  revert n. induction l as [|[y | y b | b] l IH]; intros [|n]; simpl;
    try discriminate.
  - intros Heq. injection Heq as ->. split; [left|]; reflexivity.
  - intros Heq. destruct (IH _ Heq) as [Hin Hlen].
    split; [right; exact Hin | rewrite Hlen; reflexivity].
  - apply IH.
  - apply IH.
Qed.

Lemma analysis_timers_unchanged (n : nat) (l : list Home.task)
    (t : Home.task) :
  nth_error l n = Some t ->
  Home.task_buttonId t <> None ->
  Home.analysis_timers (Home.remove_nth n l) = Home.analysis_timers l.
Proof.
  revert n. induction l as [|[y | y b | b] l IH]; intros [|n]; simpl;
    try discriminate.
  - intros Heq Hid. injection Heq as <-. simpl in Hid. congruence.
  - intros Heq Hid. rewrite (IH _ Heq Hid). reflexivity.
  - reflexivity.
  - apply IH.
  - reflexivity.
  - apply IH.
Qed.

Lemma trimmed_nonempty (s : JsString.t) :
  falsy (JsString.trim s) = false -> falsy s = false.
Proof.
  destruct s as [|u s]; [|reflexivity].
  intros H. exact H.
Qed.

Lemma enabled_button_facts (s : Home.state) :
  (Home.analyzeDisabled s = false -> 50 <= List.length (Home.text s)) /\
  (Home.analyzeDisabled s = false -> falsy (JsString.trim (Home.text s)) = false).
Proof.
  unfold Home.analyzeDisabled. split; intros Henabled;
    apply orb_false_elim in Henabled as [Henabled _];
    apply orb_false_elim in Henabled as [Hblank Hlong].
  - apply Nat.ltb_ge in Hlong. exact Hlong.
  - exact Hblank.
Qed.

(** ** The page while it runs *)

Section PageRuns.

Variable World : Type.
Variable detectAIText : JsString.t -> JS World Detector.result.

Local Abbreviation reachable := (Home.reachable detectAIText).
Local Abbreviation step := (Home.step detectAIText).
Local Abbreviation steps := (Home.steps detectAIText).

Lemma reachable_steps (es : list Home.event) (p p' : Home.page World) :
  reachable p -> steps es p = Some p' -> reachable p'.
Proof.
  revert p. induction es as [|e es IH]; simpl; intros p Hp Hrun.
  - injection Hrun as <-. exact Hp.
  - destruct (step e p) as [p1|] eqn:Hstep; [|discriminate].
    exact (IH _ (Home.reachable_step _ Hp Hstep) Hrun).
Qed.

Lemma safeDetectAI_threw_only (text : JsString.t) (w w' : World)
    (e : thrown) :
  safeDetectAI detectAIText text w = (Threw e, w') ->
  50 <= List.length (JsString.trim text) /\
  exists v, detectAIText text w = (Threw v, w') /\
            (v = ErrorWithThrowingMessage e \/ v = Uninspectable e).
Proof.
  intros Hrun.
  destruct (Nat.lt_ge_cases (List.length (JsString.trim text)) 50)
    as [Hshort | Hlong].
  - rewrite (safeDetectAI_too_short detectAIText text w Hshort) in Hrun.
    discriminate Hrun.
  - split; [exact Hlong|].
    destruct (detectAIText text w) as [[d | v] w1] eqn:Hcall.
    + rewrite (safeDetectAI_returned _ _ _ Hlong Hcall) in Hrun.
      discriminate Hrun.
    + destruct (inspectable v) eqn:Hinspect.
      * rewrite (safeDetectAI_threw _ _ _ Hlong Hcall Hinspect) in Hrun.
        discriminate Hrun.
      * destruct (not_inspectable _ Hinspect) as (raised & He).
        rewrite (safeDetectAI_rethrows _ _ _ Hlong Hcall He) in Hrun.
        injection Hrun as -> ->. exists v. split; [reflexivity | exact He].
Qed.

Lemma analyses_invariant (p : Home.page World) :
  reachable p ->
  List.length (Home.analysis_timers (Home.pending p)) =
    (if Home.isAnalyzing (Home.view p) then 1 else 0) /\
  Forall (fun t => 50 <= List.length t /\ falsy (JsString.trim t) = false)
    (Home.analysis_timers (Home.pending p)) /\
  Forall (fun e =>
            exists t w v w',
              50 <= List.length (JsString.trim t) /\
              detectAIText t w = (Threw v, w') /\
              (v = ErrorWithThrowingMessage e \/ v = Uninspectable e))
    (Home.console p).
Proof.
  induction 1 as [w | e p p' Hp (Hcount & Htimers & Hconsole) Hstep].
  - simpl. repeat split; constructor.
  - destruct e; simpl in Hstep.
    + injection Hstep as <-. simpl. auto.
    + injection Hstep as <-. simpl. auto.
    + destruct (Home.clearDisabled (Home.view p)); [discriminate|].
      injection Hstep as <-. simpl. auto.
    + injection Hstep as <-. simpl. auto.
    + destruct (Home.analyzeDisabled (Home.view p)) eqn:Hdisabled;
        [discriminate|].
      injection Hstep as <-.
      unfold Home.analyzeDisabled in Hdisabled.
      apply orb_false_elim in Hdisabled as [Hdisabled Hidle].
      apply orb_false_elim in Hdisabled as [Hblank Hlong].
      apply Nat.ltb_ge in Hlong.
      unfold Home.analyzeText. rewrite Hblank. simpl.
      rewrite Hidle in Hcount.
      rewrite analysis_timers_app. simpl.
      split; [rewrite length_app, Hcount; reflexivity|].
      split; [|auto].
      apply Forall_app. split; [exact Htimers|].
      constructor; [split; assumption | constructor].
    + destruct (Home.copyTextDisabled (Home.view p)); [discriminate|].
      injection Hstep as <-. simpl.
      rewrite analysis_timers_app, app_nil_r. auto.
    + injection Hstep as <-. simpl.
      rewrite analysis_timers_app, app_nil_r. auto.
    + injection Hstep as <-. simpl.
      rewrite analysis_timers_app, app_nil_r. auto.
    + destruct (nth_error (Home.pending p) n) as [[x | x b | b]|] eqn:Hnth;
        [| | |discriminate]; injection Hstep as <-; simpl.
      * destruct (analysis_timers_settled _ _ Hnth) as [Hin Hlen].
        assert (Hnone : Home.analysis_timers
                          (Home.remove_nth n (Home.pending p)) = []).
        { destruct (Home.isAnalyzing (Home.view p));
            destruct (Home.analysis_timers
                        (Home.remove_nth n (Home.pending p)));
            simpl in Hlen; try reflexivity; lia. }
        unfold Home.analyzeText_resumed. simpl.
        destruct (safeDetectAI detectAIText x (Home.world p))
          as [[r | err] w'] eqn:Hrun; simpl; rewrite Hnone.
        -- repeat split; [constructor | exact Hconsole].
        -- repeat split; [constructor|].
           apply Forall_app. split; [exact Hconsole|].
           constructor; [|constructor].
           destruct (safeDetectAI_threw_only _ _ Hrun) as (Hlong & v & Hcall & Hv).
           exists x, (Home.world p), v, w'. auto.
      * rewrite analysis_timers_app, app_nil_r.
        rewrite (analysis_timers_unchanged _ _ Hnth) by discriminate.
        auto.
      * rewrite (analysis_timers_unchanged _ _ Hnth) by discriminate.
        auto.
    + destruct (nth_error (Home.pending p) n) as [[x | x b | b]|] eqn:Hnth;
        try discriminate.
      injection Hstep as <-. simpl.
      rewrite (analysis_timers_unchanged _ _ Hnth) by discriminate.
      auto.
Qed.

(** At most one analysis is under way at any time, the page shows it
    as running exactly while one is, and it does not offer to start
    another until that one has finished. *)
Theorem one_analysis_at_a_time (p : Home.page World) :
  reachable p ->
  List.length (Home.analysis_timers (Home.pending p)) <= 1 /\
  (Home.isAnalyzing (Home.view p) = true <->
   Home.analysis_timers (Home.pending p) <> []) /\
  (Home.isAnalyzing (Home.view p) = true -> step Home.ClickAnalyze p = None).
Proof.
  intros Hp. destruct (analyses_invariant Hp) as (Hcount & _).
  split; [|split].
  - destruct (Home.isAnalyzing (Home.view p)); lia.
  - destruct (Home.isAnalyzing (Home.view p));
      destruct (Home.analysis_timers (Home.pending p));
      simpl in Hcount; try discriminate; split; congruence.
  - intros Hbusy. simpl. unfold Home.analyzeDisabled.
    rewrite Hbusy, orb_true_r. reflexivity.
Qed.

(** An analysis under way holds the text the button let through, at
    least 50 code units and not all blanks, and when its timer runs the
    page shows what [safeDetectAI] makes of that very text: its record
    if it returns one, and else the old result with the thrown value
    logged. *)
Theorem analysis_of_the_text_let_through (p : Home.page World) (n : nat)
    (t : JsString.t) :
  reachable p ->
  nth_error (Home.pending p) n = Some (Home.AnalysisTimer t) ->
  50 <= List.length t /\ JsString.trim t <> [] /\
  exists p',
    step (Home.Settle n) p = Some p' /\
    Home.isAnalyzing (Home.view p') = false /\
    (forall r w,
       safeDetectAI detectAIText t (Home.world p) = (Returned r, w) ->
       Home.result (Home.view p') = Some r /\
       Home.console p' = Home.console p) /\
    (forall e w,
       safeDetectAI detectAIText t (Home.world p) = (Threw e, w) ->
       Home.result (Home.view p') = Home.result (Home.view p) /\
       Home.console p' = (Home.console p ++ [e])%list).
Proof.
  intros Hp Hnth.
  destruct (analyses_invariant Hp) as (_ & Htimers & _).
  destruct (analysis_timers_settled _ _ Hnth) as [Hin _].
  rewrite Forall_forall in Htimers.
  destruct (Htimers _ Hin) as [Hlong Hblank].
  split; [exact Hlong|]. split.
  { intros Hnil. rewrite Hnil in Hblank. discriminate. }
  simpl. rewrite Hnth. eexists. split; [reflexivity|].
  unfold Home.run, Home.analyzeText_resumed. simpl.
  destruct (safeDetectAI detectAIText t (Home.world p)) as [[r | e] w];
    simpl; repeat split; intros; try discriminate;
    match goal with H : (_, _) = (_, _) |- _ => injection H as <- _ end;
    reflexivity.
Qed.


(** The button and the wrapper measure differently. A text the wrapper
    accepts always has the button enabled on an idle page; the button
    is enabled exactly when the page is idle and the untrimmed text has
    50 code units and is not all blanks; so any text that is not blank
    and too short for the wrapper gets the button enabled by blanks
    added at its end, and is still too short for the wrapper. *)
Theorem analyze_button_and_guard (s : Home.state) :
  (50 <= List.length (JsString.trim (Home.text s)) ->
   Home.isAnalyzing s = false ->
   Home.analyzeDisabled s = false) /\
  (Home.analyzeDisabled s = false <->
   50 <= List.length (Home.text s) /\ JsString.trim (Home.text s) <> [] /\
   Home.isAnalyzing s = false) /\
  (JsString.trim (Home.text s) <> [] ->
   List.length (JsString.trim (Home.text s)) < 50 ->
   Home.isAnalyzing s = false ->
   exists pad,
     blank pad /\
     Home.analyzeDisabled (Home.setText (Home.text s ++ pad) s) = false /\
     List.length (JsString.trim (Home.text s ++ pad)) < 50).
Proof.
  assert (Hiff : forall s' : Home.state,
             Home.analyzeDisabled s' = false <->
             50 <= List.length (Home.text s') /\
             JsString.trim (Home.text s') <> [] /\
             Home.isAnalyzing s' = false).
  { intros s'. unfold Home.analyzeDisabled. split.
    - intros Henabled.
      apply orb_false_elim in Henabled as [Henabled Hidle].
      apply orb_false_elim in Henabled as [Hblank Hlong].
      apply Nat.ltb_ge in Hlong.
      repeat split; [exact Hlong | | exact Hidle].
      intros Hnil. rewrite Hnil in Hblank. discriminate.
    - intros (Hlong & Hblank & Hidle). rewrite Hidle.
      apply Nat.ltb_ge in Hlong. rewrite Hlong.
      destruct (JsString.trim (Home.text s')); [congruence | reflexivity]. }
  split; [|split; [apply Hiff|]].
  - intros Hlong Hidle. apply Hiff.
    pose proof (trim_length (Home.text s)) as Htrim.
    repeat split; [lia | | exact Hidle].
    intros Hnil. rewrite Hnil in Hlong. simpl in Hlong. lia.
  - intros Hblank Hshort Hidle.
    assert (Hpad : blank (repeat 32%N 50)).
    { apply Forall_forall. intros u Hu.
      apply repeat_spec in Hu. subst u. reflexivity. }
    assert (Htrim : JsString.trim (Home.text s ++ repeat 32%N 50) =
                    JsString.trim (Home.text s)).
    { exact (@trim_blank_margins [] (Home.text s) (repeat 32%N 50)
               (Forall_nil _) Hpad). }
    exists (repeat 32%N 50). split; [exact Hpad|]. split.
    + apply Hiff. unfold Home.setText.
      cbn [Home.text Home.isAnalyzing]. rewrite Htrim.
      repeat split; [| exact Hblank | exact Hidle].
      rewrite length_app, repeat_length. lia.
    + rewrite Htrim. exact Hshort.
Qed.

(** A text padded with blanks up to 50 code units gets past the button
    and is then turned down by the wrapper: the analysis runs, the
    detector is not called, and the page shows the minimum-length
    error. *)
Theorem padded_text_is_turned_down (p : Home.page World) :
  Home.analyzeDisabled (Home.view p) = false ->
  List.length (JsString.trim (Home.text (Home.view p))) < 50 ->
  exists p',
    steps [Home.ClickAnalyze; Home.Settle (List.length (Home.pending p))] p =
      Some p' /\
    Home.result (Home.view p') =
      Some {| isAIGenerated := false;
              confidence := 0;
              reasons := [JsString.lit "Text too short for reliable analysis"];
              score := 0;
              error := Some (JsString (JsString.lit "Minimum 50 characters required"));
              perplexityScore := 0;
              burstinessScore := 0 |} /\
    Home.isAnalyzing (Home.view p') = false /\
    Home.world p' = Home.world p /\
    Home.pending p' = Home.pending p.
Proof.
  intros Henabled Hshort.
  pose proof (proj2 (enabled_button_facts (Home.view p)) Henabled)
    as Hblank.
  simpl. rewrite Henabled. unfold Home.analyzeText. rewrite Hblank.
  simpl. rewrite nth_error_snoc. simpl.
  unfold Home.analyzeText_resumed. simpl.
  rewrite (safeDetectAI_too_short detectAIText _ (Home.world p) Hshort).
  eexists. split; [reflexivity|]. simpl.
  rewrite remove_nth_snoc. repeat split.
Qed.

(** An analysis answers for the text it was started on. Edit the text
    while it runs and the result shown is that of the old text; clear
    the page while it runs and the result of the cleared text appears
    on the empty page. When [safeDetectAI] throws on the old text
    instead, the value is logged and no result comes. *)
Theorem result_of_the_text_at_the_click (p : Home.page World)
    (value : JsString.t) :
  Home.analyzeDisabled (Home.view p) = false ->
  (forall r w,
     safeDetectAI detectAIText (Home.text (Home.view p)) (Home.world p) =
       (Returned r, w) ->
     (exists p',
        steps [Home.ClickAnalyze; Home.Change value;
               Home.Settle (List.length (Home.pending p))] p = Some p' /\
        Home.text (Home.view p') = value /\
        Home.result (Home.view p') = Some r /\
        Home.isAnalyzing (Home.view p') = false) /\
     (exists p',
        steps [Home.ClickAnalyze; Home.ClickClear;
               Home.Settle (List.length (Home.pending p))] p = Some p' /\
        Home.text (Home.view p') = [] /\
        Home.selectedExample (Home.view p') = None /\
        Home.result (Home.view p') = Some r /\
        Home.isAnalyzing (Home.view p') = false)) /\
  (forall e w,
     safeDetectAI detectAIText (Home.text (Home.view p)) (Home.world p) =
       (Threw e, w) ->
     (exists p',
        steps [Home.ClickAnalyze; Home.Change value;
               Home.Settle (List.length (Home.pending p))] p = Some p' /\
        Home.text (Home.view p') = value /\
        Home.result (Home.view p') = Home.result (Home.view p) /\
        Home.isAnalyzing (Home.view p') = false /\
        Home.console p' = (Home.console p ++ [e])%list) /\
     (exists p',
        steps [Home.ClickAnalyze; Home.ClickClear;
               Home.Settle (List.length (Home.pending p))] p = Some p' /\
        Home.text (Home.view p') = [] /\
        Home.result (Home.view p') = None /\
        Home.isAnalyzing (Home.view p') = false /\
        Home.console p' = (Home.console p ++ [e])%list)).
Proof.
  intros Henabled.
  pose proof (proj2 (enabled_button_facts (Home.view p)) Henabled)
    as Hblank.
  split; intros x w Hrun; split.
  - simpl. rewrite Henabled. unfold Home.analyzeText. rewrite Hblank.
    simpl. rewrite nth_error_snoc. simpl.
    unfold Home.analyzeText_resumed. simpl. rewrite Hrun.
    eexists. split; [reflexivity|]. simpl. auto.
  - simpl. rewrite Henabled. unfold Home.analyzeText. rewrite Hblank.
    simpl. unfold Home.clearDisabled. simpl.
    rewrite (trimmed_nonempty _ Hblank). simpl.
    rewrite nth_error_snoc. simpl.
    unfold Home.analyzeText_resumed. simpl. rewrite Hrun.
    eexists. split; [reflexivity|]. simpl. auto.
  - simpl. rewrite Henabled. unfold Home.analyzeText. rewrite Hblank.
    simpl. rewrite nth_error_snoc. simpl.
    unfold Home.analyzeText_resumed. simpl. rewrite Hrun.
    eexists. split; [reflexivity|]. simpl. auto.
  - simpl. rewrite Henabled. unfold Home.analyzeText. rewrite Hblank.
    simpl. unfold Home.clearDisabled. simpl.
    rewrite (trimmed_nonempty _ Hblank). simpl.
    rewrite nth_error_snoc. simpl.
    unfold Home.analyzeText_resumed. simpl. rewrite Hrun.
    eexists. split; [reflexivity|]. simpl. auto.
Qed.

End PageRuns.

Lemma sample_pages_reachable :
  Home.reachable (detector_counting ai_verdict) typed_page /\
  Home.reachable (detector_counting ai_verdict) analyzing_page /\
  Home.reachable (detector_counting ai_verdict) analyzed_page /\
  Home.reachable (detector_counting ai_verdict) padded_page.
Proof.
  pose proof (Home.reachable_start (detector_counting ai_verdict) 0) as Hstart.
  repeat split.
  - exact (@reachable_steps _ _ [Home.Change long_text] _ _ Hstart eq_refl).
  - exact (@reachable_steps _ _ [Home.Change long_text; Home.ClickAnalyze]
             _ _ Hstart eq_refl).
  - exact (@reachable_steps _ _
             [Home.Change long_text; Home.ClickAnalyze; Home.Settle 0]
             _ _ Hstart eq_refl).
  - exact (@reachable_steps _ _ [Home.Change padded_text] _ _ Hstart eq_refl).
Qed.

Lemma one_analysis_at_a_time_witness :
  List.length (Home.analysis_timers (Home.pending analyzing_page)) <= 1 /\
  (Home.isAnalyzing (Home.view analyzing_page) = true <->
   Home.analysis_timers (Home.pending analyzing_page) <> []) /\
  (Home.isAnalyzing (Home.view analyzing_page) = true ->
   Home.step (detector_counting ai_verdict) Home.ClickAnalyze analyzing_page =
     None).
Proof.
  apply (@one_analysis_at_a_time nat (detector_counting ai_verdict)
           analyzing_page).
  exact (proj1 (proj2 sample_pages_reachable)).
Defined.

Lemma analysis_of_the_text_let_through_witness :
  50 <= List.length long_text /\ JsString.trim long_text <> [] /\
  exists p',
    Home.step (detector_counting ai_verdict) (Home.Settle 0) analyzing_page =
      Some p' /\
    Home.isAnalyzing (Home.view p') = false /\
    (forall r w,
       safeDetectAI (detector_counting ai_verdict) long_text
         (Home.world analyzing_page) = (Returned r, w) ->
       Home.result (Home.view p') = Some r /\
       Home.console p' = Home.console analyzing_page) /\
    (forall e w,
       safeDetectAI (detector_counting ai_verdict) long_text
         (Home.world analyzing_page) = (Threw e, w) ->
       Home.result (Home.view p') = Home.result (Home.view analyzing_page) /\
       Home.console p' = (Home.console analyzing_page ++ [e])%list).
Proof.
  apply (@analysis_of_the_text_let_through nat (detector_counting ai_verdict)
           analyzing_page 0 long_text).
  - exact (proj1 (proj2 sample_pages_reachable)).
  - reflexivity.
Defined.


(** With a detector that throws an [Error] whose [message] getter
    throws, the analysis ends in the [catch] of [analyzeText]: the
    value is logged and no result is shown. *)
Example console_logs_a_throwing_getter :
  Home.steps
    (detector_throwing (ErrorWithThrowingMessage (NotAnError JsNull)))
    [Home.Change long_text; Home.ClickAnalyze; Home.Settle 0]
    (Home.start tt) =
  Some {| Home.view := Home.setText long_text Home.initial;
          Home.pending := [];
          Home.world := tt;
          Home.clipboard := None;
          Home.console := [NotAnError JsNull] |}.
Proof. reflexivity. Qed.

Lemma analyze_button_and_guard_witness :
  Home.analyzeDisabled (Home.view typed_page) = false /\
  (50 <= List.length (Home.text (Home.view padded_page)) /\
   JsString.trim (Home.text (Home.view padded_page)) <> [] /\
   Home.isAnalyzing (Home.view padded_page) = false) /\
  (exists pad,
     blank pad /\
     Home.analyzeDisabled
       (Home.setText (ten_characters ++ pad)
          (Home.setText ten_characters Home.initial)) = false /\
     List.length (JsString.trim (ten_characters ++ pad)) < 50).
Proof.
  split; [|split].
  - apply (proj1 (analyze_button_and_guard (Home.view typed_page))).
    + vm_compute. lia.
    + reflexivity.
  - apply (proj1 (proj1 (proj2 (analyze_button_and_guard
                                  (Home.view padded_page))))).
    reflexivity.
  - apply (proj2 (proj2 (analyze_button_and_guard
                           (Home.setText ten_characters Home.initial)))).
    + vm_compute. discriminate.
    + vm_compute. lia.
    + reflexivity.
Defined.

Lemma padded_text_is_turned_down_witness :
  exists p',
    Home.steps (detector_counting ai_verdict)
      [Home.ClickAnalyze; Home.Settle 0] padded_page = Some p' /\
    Home.result (Home.view p') =
      Some {| isAIGenerated := false;
              confidence := 0;
              reasons := [JsString.lit "Text too short for reliable analysis"];
              score := 0;
              error := Some (JsString (JsString.lit "Minimum 50 characters required"));
              perplexityScore := 0;
              burstinessScore := 0 |} /\
    Home.isAnalyzing (Home.view p') = false /\
    Home.world p' = 0 /\
    Home.pending p' = [].
Proof.
  apply (@padded_text_is_turned_down nat (detector_counting ai_verdict)
           padded_page).
  - reflexivity.
  - vm_compute. lia.
Defined.

Lemma result_of_the_text_at_the_click_witness :
  exists r w,
    safeDetectAI (detector_counting ai_verdict) long_text 0 = (Returned r, w) /\
    (exists p',
       Home.steps (detector_counting ai_verdict)
         [Home.ClickAnalyze; Home.Change ten_characters; Home.Settle 0]
         typed_page = Some p' /\
       Home.text (Home.view p') = ten_characters /\
       Home.result (Home.view p') = Some r /\
       Home.isAnalyzing (Home.view p') = false) /\
    (exists p',
       Home.steps (detector_counting ai_verdict)
         [Home.ClickAnalyze; Home.ClickClear; Home.Settle 0]
         typed_page = Some p' /\
       Home.text (Home.view p') = [] /\
       Home.selectedExample (Home.view p') = None /\
       Home.result (Home.view p') = Some r /\
       Home.isAnalyzing (Home.view p') = false).
Proof.
  do 2 eexists. split; [reflexivity|].
  apply (proj1 (@result_of_the_text_at_the_click nat
                  (detector_counting ai_verdict) typed_page ten_characters
                  eq_refl) _ 1).
  reflexivity.
Defined.

(** ** Copy marks *)

Lemma truthy_set_same (key : JsString.t) (value : bool) (o : JsObject.t) :
  JsObject.truthy key (JsObject.set key value o) = value.
Proof.
  unfold JsObject.truthy. rewrite get_set_same. destruct value; reflexivity.
Qed.

Lemma truthy_set_other (key key' : JsString.t) (value : bool)
    (o : JsObject.t) :
  key' <> key ->
  JsObject.truthy key' (JsObject.set key value o) = JsObject.truthy key' o.
Proof.
  intros Hneq. unfold JsObject.truthy.
  rewrite (get_set_other value o Hneq). reflexivity.
Qed.

Lemma keys_set_cases (key key' : JsString.t) (value : bool) (o : JsObject.t) :
  In key' (JsObject.keys (JsObject.set key value o)) ->
  key' = key \/ In key' (JsObject.keys o).
Proof.
  destruct (keys_set key value o) as [Hin Hout].
  destruct (in_dec (list_eq_dec N.eq_dec) key (JsObject.keys o)) as [H | H].
  - rewrite (Hin H). auto.
  - rewrite (Hout H), in_app_iff. simpl. intuition.
Qed.

Lemma keys_set_NoDup (key : JsString.t) (value : bool) (o : JsObject.t) :
  NoDup (JsObject.keys o) -> NoDup (JsObject.keys (JsObject.set key value o)).
Proof.
  destruct (keys_set key value o) as [Hin Hout].
  destruct (in_dec (list_eq_dec N.eq_dec) key (JsObject.keys o)) as [H | H].
  - rewrite (Hin H). auto.
  - rewrite (Hout H). intros Hnodup.
    apply NoDup_app; [exact Hnodup | constructor; [intros [] | constructor] |].
    intros x Hx [<- | []]. contradiction.
Qed.

Lemma get_in_keys (key : JsString.t) (o : JsObject.t) (value : bool) :
  JsObject.get key o = Some value -> In key (JsObject.keys o).
Proof.
  induction o as [|[k v] o IH]; simpl; [discriminate|].
  destruct (string_eqb key k) eqn:Hk.
  - intros _. left. apply string_eqb_eq in Hk. auto.
  - intros Hget. right. exact (IH Hget).
Qed.

Lemma consistent_schedule (o : JsObject.t) (l : list Home.task)
    (t : Home.task) :
  copies_consistent o l ->
  (forall id, Home.task_buttonId t = Some id -> In id Home.buttonIds) ->
  copies_consistent o (l ++ [t]).
Proof.
  intros (Hmarks & Hnodup & Hkeys & Hids) Ht.
  repeat split; [| exact Hnodup | exact Hkeys |].
  - intros id Hid. apply in_or_app. left. exact (Hmarks _ Hid).
  - intros t' id Hin Hid. apply in_app_or in Hin as [Hin | [<- | []]].
    + exact (Hids _ _ Hin Hid).
    + exact (Ht _ Hid).
Qed.

Lemma consistent_unschedule (o : JsObject.t) (l : list Home.task) (n : nat)
    (t : Home.task) :
  copies_consistent o l ->
  nth_error l n = Some t ->
  (forall id, t <> Home.CopiedTimer id) ->
  copies_consistent o (Home.remove_nth n l).
Proof.
  intros (Hmarks & Hnodup & Hkeys & Hids) Hnth Ht.
  repeat split; [| exact Hnodup | exact Hkeys |].
  - intros id Hid.
    apply (remove_nth_keeps _ _ (Hmarks _ Hid) Hnth).
    intros Heq. exact (Ht id (eq_sym Heq)).
  - intros t' id Hin Hid. exact (Hids _ _ (remove_nth_subset _ _ _ Hin) Hid).
Qed.

Lemma consistent_written (o : JsObject.t) (l : list Home.task) (n : nat)
    (text id : JsString.t) :
  copies_consistent o l ->
  nth_error l n = Some (Home.ClipboardWrite text id) ->
  copies_consistent (JsObject.set id true o)
    (Home.remove_nth n l ++ [Home.CopiedTimer id]).
Proof.
  intros (Hmarks & Hnodup & Hkeys & Hids) Hnth.
  assert (Hid : In id Home.buttonIds).
  { exact (Hids _ _ (nth_error_In _ _ Hnth) eq_refl). }
  repeat split.
  - intros id' Hmark. apply in_or_app.
    destruct (list_eq_dec N.eq_dec id' id) as [-> | Hneq].
    + right. left. reflexivity.
    + left. rewrite (truthy_set_other true o Hneq) in Hmark.
      apply (remove_nth_keeps _ _ (Hmarks _ Hmark) Hnth). discriminate.
  - apply keys_set_NoDup. exact Hnodup.
  - intros id' Hin.
    destruct (keys_set_cases _ _ _ _ Hin) as [-> | Hin']; auto.
  - intros t' id' Hin Heq. apply in_app_or in Hin as [Hin | [<- | []]].
    + exact (Hids _ _ (remove_nth_subset _ _ _ Hin) Heq).
    + injection Heq as <-. exact Hid.
Qed.

Lemma consistent_expired (o : JsObject.t) (l : list Home.task) (n : nat)
    (id : JsString.t) :
  copies_consistent o l ->
  nth_error l n = Some (Home.CopiedTimer id) ->
  copies_consistent (JsObject.set id false o) (Home.remove_nth n l).
Proof.
  intros (Hmarks & Hnodup & Hkeys & Hids) Hnth.
  assert (Hid : In id Home.buttonIds).
  { exact (Hids _ _ (nth_error_In _ _ Hnth) eq_refl). }
  repeat split.
  - intros id' Hmark.
    destruct (list_eq_dec N.eq_dec id' id) as [-> | Hneq].
    + rewrite truthy_set_same in Hmark. discriminate.
    + rewrite (truthy_set_other false o Hneq) in Hmark.
      apply (remove_nth_keeps _ _ (Hmarks _ Hmark) Hnth). congruence.
  - apply keys_set_NoDup. exact Hnodup.
  - intros id' Hin.
    destruct (keys_set_cases _ _ _ _ Hin) as [-> | Hin']; auto.
  - intros t' id' Hin Heq.
    exact (Hids _ _ (remove_nth_subset _ _ _ Hin) Heq).
Qed.

Section CopyMarks.

Variable World : Type.
Variable detectAIText : JsString.t -> JS World Detector.result.

Lemma copies_invariant (p : Home.page World) :
  Home.reachable detectAIText p ->
  copies_consistent (Home.copiedStates (Home.view p)) (Home.pending p).
Proof.
  induction 1 as [w | e p p' Hp IH Hstep].
  - simpl. repeat split; try constructor; try contradiction.
    intros id Hmark. discriminate Hmark.
  - destruct e; simpl in Hstep.
    + injection Hstep as <-. exact IH.
    + injection Hstep as <-. exact IH.
    + destruct (Home.clearDisabled (Home.view p)); [discriminate|].
      injection Hstep as <-. exact IH.
    + injection Hstep as <-. exact IH.
    + destruct (Home.analyzeDisabled (Home.view p)); [discriminate|].
      injection Hstep as <-. unfold Home.analyzeText.
      destruct (falsy (JsString.trim (Home.text (Home.view p))));
        [exact IH|].
      simpl. apply consistent_schedule; [exact IH | discriminate].
    + destruct (Home.copyTextDisabled (Home.view p)); [discriminate|].
      injection Hstep as <-. simpl.
      apply consistent_schedule; [exact IH|].
      intros id Heq. injection Heq as <-. simpl. auto.
    + injection Hstep as <-. simpl.
      apply consistent_schedule; [exact IH|].
      intros id Heq. injection Heq as <-. simpl. auto.
    + injection Hstep as <-. simpl.
      apply consistent_schedule; [exact IH|].
      intros id Heq. injection Heq as <-. simpl. auto.
    + destruct (nth_error (Home.pending p) n) as [[x | x b | b]|] eqn:Hnth;
        [| | |discriminate]; injection Hstep as <-; simpl.
      * unfold Home.analyzeText_resumed. simpl.
        destruct (safeDetectAI detectAIText x (Home.world p)) as [[r | err] w'];
          simpl; apply (@consistent_unschedule _ _ _ _ IH Hnth); discriminate.
      * exact (@consistent_written _ _ _ _ _ IH Hnth).
      * exact (@consistent_expired _ _ _ _ IH Hnth).
    + destruct (nth_error (Home.pending p) n) as [[x | x b | b]|] eqn:Hnth;
        try discriminate.
      injection Hstep as <-. simpl.
      apply (@consistent_unschedule _ _ _ _ IH Hnth); discriminate.
Qed.

(** A copy mark that shows has a timer pending that will take it back,
    so no button stays on "Copied!" for good. *)
Theorem copy_mark_has_its_timer (p : Home.page World) (id : JsString.t) :
  Home.reachable detectAIText p ->
  JsObject.truthy id (Home.copiedStates (Home.view p)) = true ->
  In (Home.CopiedTimer id) (Home.pending p).
Proof.
  intros Hp Hmark. destruct (copies_invariant Hp) as (Hmarks & _).
  exact (Hmarks _ Hmark).
Qed.

(** [copiedStates] only ever holds the ids of the three copy buttons,
    each at most once; the default id "default" of [copyToClipboard] is
    never used. *)
Theorem copy_marks_of_the_buttons (p : Home.page World) :
  Home.reachable detectAIText p ->
  NoDup (JsObject.keys (Home.copiedStates (Home.view p))) /\
  incl (JsObject.keys (Home.copiedStates (Home.view p))) Home.buttonIds /\
  List.length (JsObject.keys (Home.copiedStates (Home.view p))) <= 3 /\
  JsObject.get (JsString.lit "default") (Home.copiedStates (Home.view p)) =
    None.
Proof.
  intros Hp. destruct (copies_invariant Hp) as (_ & Hnodup & Hkeys & _).
  split; [exact Hnodup|]. split; [exact Hkeys|]. split.
  - exact (NoDup_incl_length Hnodup Hkeys).
  - destruct (JsObject.get (JsString.lit "default")
                (Home.copiedStates (Home.view p))) eqn:Hget; [|reflexivity].
    exfalso.
    assert (Hin : In (JsString.lit "default")
                    (JsObject.keys (Home.copiedStates (Home.view p)))).
    { exact (get_in_keys _ _ Hget). }
    apply Hkeys in Hin. vm_compute in Hin.
    repeat (destruct Hin as [Hin | Hin]; [discriminate Hin|]).
    exact Hin.
Qed.

End CopyMarks.

Lemma copied_page_reachable :
  Home.reachable (detector_counting ai_verdict) copied_page.
Proof.
  exact (@reachable_steps _ _ [Home.ClickCopyInstall; Home.Settle 0] _ _
           (Home.reachable_start (detector_counting ai_verdict) 0) eq_refl).
Qed.

Lemma copy_mark_has_its_timer_witness :
  In (Home.CopiedTimer (JsString.lit "npm-install"))
    (Home.pending copied_page).
Proof.
  apply (@copy_mark_has_its_timer nat (detector_counting ai_verdict)
           copied_page (JsString.lit "npm-install")).
  - exact copied_page_reachable.
  - reflexivity.
Defined.

Lemma copy_marks_of_the_buttons_witness :
  NoDup (JsObject.keys (Home.copiedStates (Home.view copied_page))) /\
  incl (JsObject.keys (Home.copiedStates (Home.view copied_page)))
    Home.buttonIds /\
  List.length (JsObject.keys (Home.copiedStates (Home.view copied_page))) <= 3 /\
  JsObject.get (JsString.lit "default")
    (Home.copiedStates (Home.view copied_page)) = None.
Proof.
  apply (@copy_marks_of_the_buttons nat (detector_counting ai_verdict)
           copied_page).
  exact copied_page_reachable.
Defined.

(** ** The page at rest *)

Lemma callbacks_to_come_app (l l' : list Home.task) :
  callbacks_to_come (l ++ l') = callbacks_to_come l + callbacks_to_come l'.
Proof.
  induction l as [|[x | x b | b] l IH]; simpl; rewrite ?IH; reflexivity.
Qed.

Section Rest.

Variable World : Type.
Variable detectAIText : JsString.t -> JS World Detector.result.

Lemma settle_first (p : Home.page World) (t : Home.task)
    (l : list Home.task) :
  Home.pending p = t :: l ->
  exists p',
    Home.step detectAIText (Home.Settle 0) p = Some p' /\
    callbacks_to_come (Home.pending p') < callbacks_to_come (Home.pending p) /\
    Home.text (Home.view p') = Home.text (Home.view p) /\
    Home.selectedExample (Home.view p') = Home.selectedExample (Home.view p) /\
    Home.darkMode (Home.view p') = Home.darkMode (Home.view p).
Proof.
  intros Hpending. unfold Home.step. rewrite Hpending. simpl.
  eexists. split; [reflexivity|].
  destruct t as [x | x b | b]; simpl.
  - unfold Home.analyzeText_resumed. simpl. rewrite Hpending. simpl.
    destruct (safeDetectAI detectAIText x (Home.world p)) as [[r | err] w'];
      simpl; repeat split; lia.
  - rewrite Hpending. simpl. rewrite callbacks_to_come_app. simpl.
    repeat split; lia.
  - rewrite Hpending. simpl. repeat split; lia.
Qed.

Lemma settles_within (n : nat) :
  forall p : Home.page World,
    callbacks_to_come (Home.pending p) <= n ->
    exists k p',
      Home.steps detectAIText (repeat (Home.Settle 0) k) p = Some p' /\
      Home.pending p' = [] /\
      Home.text (Home.view p') = Home.text (Home.view p) /\
      Home.selectedExample (Home.view p') =
        Home.selectedExample (Home.view p) /\
      Home.darkMode (Home.view p') = Home.darkMode (Home.view p).
Proof.
  induction n as [|n IH]; intros p Hbound.
  - exists 0, p. simpl. repeat split.
    destruct (Home.pending p) as [|[x | x b | b] l]; simpl in Hbound;
      [reflexivity | lia | lia | lia].
  - destruct (Home.pending p) as [|t l] eqn:Hpending.
    + exists 0, p. simpl. auto.
    + destruct (settle_first p Hpending)
        as (p1 & Hstep & Hless & Htext & Hselected & Hdark).
      rewrite Hpending in Hless.
      destruct (IH p1) as (k & p' & Hrun & Hdone & Htext' & Hselected' & Hdark').
      { simpl in Hbound, Hless. destruct t; lia. }
      exists (S k), p'. split.
      { change (match Home.step detectAIText (Home.Settle 0) p with
                | Some q => Home.steps detectAIText
                              (repeat (Home.Settle 0) k) q
                | None => None
                end = Some p').
        rewrite Hstep. exact Hrun. }
      repeat split; try assumption; congruence.
Qed.

(** Let the pending callbacks run, oldest first, and the page comes to
    rest: nothing is left pending, no analysis shows as running, every
    copy mark is off, and the text, the selected example and the theme
    are as the user left them. *)
Theorem page_comes_to_rest (p : Home.page World) :
  Home.reachable detectAIText p ->
  exists k p',
    Home.steps detectAIText (repeat (Home.Settle 0) k) p = Some p' /\
    Home.pending p' = [] /\
    Home.isAnalyzing (Home.view p') = false /\
    (forall id,
       JsObject.truthy id (Home.copiedStates (Home.view p')) = false) /\
    Home.text (Home.view p') = Home.text (Home.view p) /\
    Home.selectedExample (Home.view p') = Home.selectedExample (Home.view p) /\
    Home.darkMode (Home.view p') = Home.darkMode (Home.view p).
Proof.
  intros Hp.
  destruct (@settles_within (callbacks_to_come (Home.pending p)) p (le_n _))
    as (k & p' & Hrun & Hdone & Hkept).
  exists k, p'.
  pose proof (reachable_steps _ Hp Hrun) as Hp'.
  destruct (analyses_invariant Hp') as (Hcount & _).
  destruct (copies_invariant Hp') as (Hmarks & _).
  rewrite Hdone in Hcount, Hmarks.
  split; [exact Hrun|]. split; [exact Hdone|]. split.
  - destruct (Home.isAnalyzing (Home.view p')); [discriminate | reflexivity].
  - split; [|exact Hkept].
    intros id.
    destruct (JsObject.truthy id (Home.copiedStates (Home.view p')))
      eqn:Hmark; [|reflexivity].
    destruct (Hmarks _ Hmark).
Qed.

(** Clearing empties the text, the result and the selection and then
    disables itself and the two buttons that need a text; it cancels
    nothing that is pending and leaves a running analysis running. *)
Theorem clear_leaves_callbacks (p : Home.page World) :
  Home.clearDisabled (Home.view p) = false ->
  exists p',
    Home.step detectAIText Home.ClickClear p = Some p' /\
    Home.text (Home.view p') = [] /\
    Home.result (Home.view p') = None /\
    Home.selectedExample (Home.view p') = None /\
    Home.clearDisabled (Home.view p') = true /\
    Home.analyzeDisabled (Home.view p') = true /\
    Home.copyTextDisabled (Home.view p') = true /\
    Home.step detectAIText Home.ClickClear p' = None /\
    Home.pending p' = Home.pending p /\
    Home.isAnalyzing (Home.view p') = Home.isAnalyzing (Home.view p) /\
    Home.copiedStates (Home.view p') = Home.copiedStates (Home.view p).
Proof.
  intros Henabled. simpl. rewrite Henabled.
  eexists. split; [reflexivity|]. simpl. repeat split.
Qed.

(** Copy the same thing twice before the first mark has gone: the
    timer of the first copy takes the mark of the second away, which
    is then off while its own timer is still pending. *)
Theorem second_copy_mark_cut_short (p : Home.page World) :
  Home.pending p = [] ->
  exists p',
    Home.steps detectAIText
      [Home.ClickCopyInstall; Home.Settle 0;
       Home.ClickCopyInstall; Home.Settle 1; Home.Settle 0] p = Some p' /\
    JsObject.truthy (JsString.lit "npm-install")
      (Home.copiedStates (Home.view p')) = false /\
    Home.pending p' = [Home.CopiedTimer (JsString.lit "npm-install")] /\
    Home.clipboard p' = Some (JsString.lit "npm install ai-text-detector").
Proof.
  intros Hidle.
  unfold Home.steps, Home.step, Home.copyToClipboard, Home.schedule.
  simpl. rewrite Hidle. simpl.
  eexists. split; [reflexivity|]. simpl.
  split; [apply truthy_set_same|]. split; reflexivity.
Qed.

End Rest.

Lemma page_comes_to_rest_witness :
  exists k p',
    Home.steps (detector_counting ai_verdict) (repeat (Home.Settle 0) k)
      analyzing_page = Some p' /\
    Home.pending p' = [] /\
    Home.isAnalyzing (Home.view p') = false /\
    (forall id,
       JsObject.truthy id (Home.copiedStates (Home.view p')) = false) /\
    Home.text (Home.view p') = long_text /\
    Home.selectedExample (Home.view p') = None /\
    Home.darkMode (Home.view p') = true.
Proof.
  apply (@page_comes_to_rest nat (detector_counting ai_verdict)
           analyzing_page).
  exact (proj1 (proj2 sample_pages_reachable)).
Defined.

Lemma clear_leaves_callbacks_witness :
  exists p',
    Home.step (detector_counting ai_verdict) Home.ClickClear analyzing_page =
      Some p' /\
    Home.text (Home.view p') = [] /\
    Home.result (Home.view p') = None /\
    Home.selectedExample (Home.view p') = None /\
    Home.clearDisabled (Home.view p') = true /\
    Home.analyzeDisabled (Home.view p') = true /\
    Home.copyTextDisabled (Home.view p') = true /\
    Home.step (detector_counting ai_verdict) Home.ClickClear p' = None /\
    Home.pending p' = [Home.AnalysisTimer long_text] /\
    Home.isAnalyzing (Home.view p') = true /\
    Home.copiedStates (Home.view p') = [].
Proof.
  apply (@clear_leaves_callbacks nat (detector_counting ai_verdict)
           analyzing_page).
  reflexivity.
Defined.

Lemma second_copy_mark_cut_short_witness :
  exists p',
    Home.steps (detector_counting ai_verdict)
      [Home.ClickCopyInstall; Home.Settle 0;
       Home.ClickCopyInstall; Home.Settle 1; Home.Settle 0] typed_page =
      Some p' /\
    JsObject.truthy (JsString.lit "npm-install")
      (Home.copiedStates (Home.view p')) = false /\
    Home.pending p' = [Home.CopiedTimer (JsString.lit "npm-install")] /\
    Home.clipboard p' = Some (JsString.lit "npm install ai-text-detector").
Proof.
  apply (@second_copy_mark_cut_short nat (detector_counting ai_verdict)
           typed_page).
  reflexivity.
Defined.

Lemma trim_ignores_padding_witness :
  JsString.trim padded_text = JsString.trim (JsString.lit "hi") /\
  (List.length (JsString.trim padded_text) <? 50) =
    (List.length (JsString.trim (JsString.lit "hi")) <? 50).
Proof.
  apply (@trim_ignores_padding (repeat 32%N 30) (JsString.lit "hi")
           (repeat 10%N 32)).
  - repeat constructor.
  - repeat constructor.
Defined.

(** ** The examples and the colours *)

Lemma examples_pass_the_guard (key : Home.ExampleKey) :
  50 <= List.length (JsString.trim (Home.predefinedExamples key)) /\
  50 <= List.length (Home.predefinedExamples key) /\
  falsy (JsString.trim (Home.predefinedExamples key)) = false.
Proof. destruct key; vm_compute; repeat split; lia. Qed.

(** Every example of the catalogue can be analysed as loaded: loading
    one on an idle page puts its text in, selects it, drops the old
    result and enables the button, and the analysis started from there
    gets past the guard and is answered by one call of the detector on
    the example, whose score and reasons are shown when it returns. *)
Theorem examples_can_be_analyzed (World : Type)
    (detectAIText : JsString.t -> JS World Detector.result)
    (key : Home.ExampleKey) (p : Home.page World) :
  Home.isAnalyzing (Home.view p) = false ->
  50 <= List.length (JsString.trim (Home.predefinedExamples key)) /\
  (exists p1,
     Home.step detectAIText (Home.ClickExample key) p = Some p1 /\
     Home.text (Home.view p1) = Home.predefinedExamples key /\
     Home.selectedExample (Home.view p1) = Some key /\
     Home.result (Home.view p1) = None /\
     Home.analyzeDisabled (Home.view p1) = false) /\
  (exists p2,
     Home.steps detectAIText
       [Home.ClickExample key; Home.ClickAnalyze;
        Home.Settle (List.length (Home.pending p))] p = Some p2 /\
     Home.world p2 =
       snd (detectAIText (Home.predefinedExamples key) (Home.world p)) /\
     (forall d w',
        detectAIText (Home.predefinedExamples key) (Home.world p) =
          (Returned d, w') ->
        exists r, Home.result (Home.view p2) = Some r /\
                  score r = Detector.score d /\
                  reasons r = Detector.reasons d) /\
     (forall e w',
        detectAIText (Home.predefinedExamples key) (Home.world p) =
          (Threw e, w') ->
        inspectable e = true ->
        Home.result (Home.view p2) <> None) /\
     Home.isAnalyzing (Home.view p2) = false /\
     Home.text (Home.view p2) = Home.predefinedExamples key).
Proof.
  intros Hidle.
  destruct (examples_pass_the_guard key) as (Hguard & Hlong & Hblank).
  assert (Henabled :
            Home.analyzeDisabled
              (Home.loadExample key (Home.view p)) = false).
  { unfold Home.analyzeDisabled, Home.loadExample. simpl.
    rewrite Hblank, Hidle. simpl. rewrite orb_false_r.
    apply Nat.ltb_ge. exact Hlong. }
  split; [exact Hguard|]. split.
  - eexists. split; [reflexivity|].
    unfold Home.with_view. simpl. repeat split. exact Henabled.
  - unfold Home.steps, Home.step.
    unfold Home.with_view at 1. simpl Home.view. rewrite Henabled.
    unfold Home.analyzeText, Home.with_view. simpl Home.view.
    replace (falsy (JsString.trim
                      (Home.text (Home.loadExample key (Home.view p)))))
      with false by (symmetry; exact Hblank).
    simpl Home.pending. rewrite nth_error_snoc.
    unfold Home.run, Home.unschedule, Home.schedule, Home.analyzeText_resumed.
    simpl Home.world.
    change (Home.text (Home.loadExample key (Home.view p)))
      with (Home.predefinedExamples key).
    pose proof (safeDetectAI_world detectAIText
                  (Home.predefinedExamples key) (Home.world p) Hguard)
      as Hworld.
    destruct (safeDetectAI detectAIText (Home.predefinedExamples key)
                (Home.world p)) as [[r | err] w2] eqn:Hrun;
      simpl in Hworld; subst w2;
      (eexists; split; [reflexivity|]); simpl;
      (split; [reflexivity|]); (split; [|split; [|split; reflexivity]]).
    + intros d w' Hcall.
      rewrite (safeDetectAI_returned _ _ _ Hguard Hcall) in Hrun.
      injection Hrun as <- _. eexists. repeat split.
    + intros e w' _ _. discriminate.
    + intros d w' Hcall.
      rewrite (safeDetectAI_returned _ _ _ Hguard Hcall) in Hrun.
      discriminate Hrun.
    + intros e w' Hcall Hinspect.
      rewrite (safeDetectAI_threw _ _ _ Hguard Hcall Hinspect) in Hrun.
      discriminate Hrun.
Qed.

Lemma examples_can_be_analyzed_witness :
  50 <= List.length (JsString.trim (Home.predefinedExamples Home.humanCasual)) /\
  (exists p1,
     Home.step (detector_counting ai_verdict)
       (Home.ClickExample Home.humanCasual) analyzed_page = Some p1 /\
     Home.text (Home.view p1) = Home.predefinedExamples Home.humanCasual /\
     Home.selectedExample (Home.view p1) = Some Home.humanCasual /\
     Home.result (Home.view p1) = None /\
     Home.analyzeDisabled (Home.view p1) = false) /\
  (exists p2,
     Home.steps (detector_counting ai_verdict)
       [Home.ClickExample Home.humanCasual; Home.ClickAnalyze; Home.Settle 0]
       analyzed_page = Some p2 /\
     Home.world p2 = 2 /\
     (forall d w',
        detector_counting ai_verdict
          (Home.predefinedExamples Home.humanCasual) 1 = (Returned d, w') ->
        exists r, Home.result (Home.view p2) = Some r /\
                  score r = Detector.score d /\
                  reasons r = Detector.reasons d) /\
     (forall e w',
        detector_counting ai_verdict
          (Home.predefinedExamples Home.humanCasual) 1 = (Threw e, w') ->
        inspectable e = true ->
        Home.result (Home.view p2) <> None) /\
     Home.isAnalyzing (Home.view p2) = false /\
     Home.text (Home.view p2) = Home.predefinedExamples Home.humanCasual).
Proof.
  apply (@examples_can_be_analyzed nat (detector_counting ai_verdict)
           Home.humanCasual analyzed_page).
  reflexivity.
Defined.

(** The verdict is red for machine-written and emerald for human in
    both themes, for the text colour and the background alike, so the
    two verdicts never look the same. *)
Theorem verdict_colours (s : Home.state) (isAI : bool) :
  starts_with (JsString.lit "text-red-") (Home.getResultColor s isAI) = isAI /\
  starts_with (JsString.lit "text-emerald-") (Home.getResultColor s isAI) =
    negb isAI /\
  starts_with (JsString.lit "bg-red-") (Home.getResultBgColor s isAI) = isAI /\
  starts_with (JsString.lit "bg-emerald-") (Home.getResultBgColor s isAI) =
    negb isAI /\
  (forall s', Home.getResultColor s isAI <> Home.getResultColor s' (negb isAI)) /\
  (forall s', Home.getResultBgColor s isAI <>
              Home.getResultBgColor s' (negb isAI)).
Proof.
  unfold Home.getResultColor, Home.getResultBgColor.
  repeat split; try (destruct isAI, (Home.darkMode s); reflexivity);
    intros s'; destruct isAI, (Home.darkMode s), (Home.darkMode s');
    vm_compute; discriminate.
Qed.

Example predefinedExamples_lengths :
  map (fun key => List.length (Home.predefinedExamples key))
    [Home.chatgpt; Home.claude; Home.gemini; Home.gpt4; Home.human;
     Home.humanCasual] = [571; 379; 386; 418; 266; 359].
Proof. vm_compute. reflexivity. Qed.
